(** * sw_distribuido: a shallow embedding of the backend services and of the
    product-entry front end, with the properties of their specification.

    JavaScript strings are modelled as [string] (sequences of one-byte
    characters): case conversion and the character classes [\d] and [\D]
    follow their ASCII definition.  A rejected promise or a thrown exception
    is the left injection of a sum; code that awaits a repository threads the
    table through a small state-and-exception monad. *)

From Stdlib Require Import ZArith NArith List String Ascii Bool Lia Permutation.
From Stdlib Require Import DecimalString.
From Stdlib Require Import Floats.
Import ListNotations.
Open Scope string_scope.

(* ===================================================================== *)
(** ** JavaScript string primitives used by the sources *)
(* ===================================================================== *)

Module JS.

Definition code (c : ascii) : N := N_of_ascii c.

(** [\d] *)
Definition isDigit (c : ascii) : bool :=
  ((48 <=? code c) && (code c <=? 57))%N.

Definition isUpper (c : ascii) : bool :=
  ((65 <=? code c) && (code c <=? 90))%N.

Definition isLower (c : ascii) : bool :=
  ((97 <=? code c) && (code c <=? 122))%N.

Definition upperChar (c : ascii) : ascii :=
  if isLower c then ascii_of_N (code c - 32) else c.

Definition lowerChar (c : ascii) : ascii :=
  if isUpper c then ascii_of_N (code c + 32) else c.

Definition chars (s : string) : list ascii := list_ascii_of_string s.
Definition str (l : list ascii) : string := string_of_list_ascii l.

(** [s.toUpperCase()], [s.toLowerCase()] *)
Definition toUpperCase (s : string) : string := str (map upperChar (chars s)).
Definition toLowerCase (s : string) : string := str (map lowerChar (chars s)).

(** [s.split(sep)] for a one-character separator: never the empty array,
    [''.split(' ')] is [['']]. *)
Fixpoint split (sep : ascii) (s : string) : list string :=
  match s with
  | EmptyString => [EmptyString]
  | String c rest =>
      if Ascii.eqb c sep then EmptyString :: split sep rest
      else match split sep rest with
           | [] => [String c EmptyString]
           | w :: ws => String c w :: ws
           end
  end.

(** [w.charAt(0)]: the empty string when [w] is empty. *)
Definition charAt0 (w : string) : string :=
  match w with
  | EmptyString => EmptyString
  | String c _ => String c EmptyString
  end.

(** [ws.join('')] *)
Definition join (ws : list string) : string := String.concat EmptyString ws.

(** [hay.includes(needle)] *)
Fixpoint includes (needle hay : string) : bool :=
  String.prefix needle hay ||
  match hay with
  | EmptyString => false
  | String _ rest => includes needle rest
  end.

(** [n.toString()] for a non-negative integer. *)
Definition toString (n : N) : string := NilZero.string_of_uint (N.to_uint n).

Fixpoint repeat_char (c : ascii) (k : nat) : string :=
  match k with
  | O => EmptyString
  | S k' => String c (repeat_char c k')
  end.

(** [s.padStart(len, c)] for a one-character filler. *)
Definition padStart (len : nat) (c : ascii) (s : string) : string :=
  repeat_char c (len - String.length s) ++ s.

(** [s.substring(0, k)] *)
Definition substring0 (k : nat) (s : string) : string := str (firstn k (chars s)).

(** [a || b] on strings: the empty string is falsy. *)
Definition or_else (a b : string) : string :=
  match a with EmptyString => b | _ => a end.

(** [s.replace(/\D/g, '')] *)
Definition replace_non_digits (s : string) : string :=
  str (filter isDigit (chars s)).

End JS.

(* ===================================================================== *)
(** ** Exceptions, HTTP statuses and the service monad *)
(* ===================================================================== *)

Inductive HttpStatus : Type :=
| BAD_REQUEST | UNAUTHORIZED | NOT_FOUND | INTERNAL_SERVER_ERROR.

(** What the services can throw: Nest's [HttpException] (its subclass
    [NotFoundException] is the one with status [NOT_FOUND]), the run time's
    [TypeError], and the driver's error when a statement fails. *)
Inductive Exception : Type :=
| HttpException (message : string) (status : HttpStatus)
| TypeError (message : string)
| QueryFailedError (message : string).

Definition NotFoundException (message : string) : Exception :=
  HttpException message NOT_FOUND.

Definition err_message (e : Exception) : string :=
  match e with
  | HttpException m _ => m
  | TypeError m => m
  | QueryFailedError m => m
  end.

Definition err_status (e : Exception) : option HttpStatus :=
  match e with
  | HttpException _ s => Some s
  | _ => None
  end.

Definition Result (A : Type) : Type := (Exception + A)%type.

(** An asynchronous method over a store [S]: the outcome and the store it
    leaves behind. *)
Definition M (S A : Type) : Type := S -> Result A * S.

Definition ret {S A} (a : A) : M S A := fun s => (inr a, s).

Definition throw {S A} (e : Exception) : M S A := fun s => (inl e, s).

Definition bind {S A B} (m : M S A) (k : A -> M S B) : M S B :=
  fun s =>
    match m s with
    | (inl e, s') => (inl e, s')
    | (inr a, s') => k a s'
    end.

(** [try { m } catch (err) { h err }] *)
Definition try_catch {S A} (m : M S A) (h : Exception -> M S A) : M S A :=
  fun s =>
    match m s with
    | (inl e, s') => h e s'
    | (inr a, s') => (inr a, s')
    end.

Declare Scope svc_scope.
Delimit Scope svc_scope with svc.
Notation "x <- m ;; k" := (bind m (fun x => k))
  (at level 100, m at next level, right associativity) : svc_scope.
Notation "m ;;; k" := (bind m (fun _ => k))
  (at level 100, right associativity) : svc_scope.

(* ===================================================================== *)
(** ** A TypeORM repository over one table *)
(* ===================================================================== *)

(** The rows are kept in insertion order.  [next_id] is the table's
    auto-increment counter.  [outage] is the failure the data store currently
    answers every statement with, if any. *)
Record Table (E : Type) : Type := mkTable {
  rows : list E;
  next_id : Z;
  outage : option Exception
}.
Arguments mkTable {E}.
Arguments rows {E}.
Arguments next_id {E}.
Arguments outage {E}.

Module Repository.
Section Ops.
Context {E : Type}.
Variable id_of : E -> Z.

(** Every statement goes through the connection. *)
Definition statement {A} (run : Table E -> A * Table E) : M (Table E) A :=
  fun t =>
    match outage t with
    | Some e => (inl e, t)
    | None => let (a, t') := run t in (inr a, t')
    end.

(** [repo.findOne({ where })]: the first row that satisfies the
    condition, [null] when there is none. *)
Definition findOne (where_ : E -> bool) : M (Table E) (option E) :=
  statement (fun t => (find where_ (rows t), t)).

(** [repo.find()] *)
Definition find_all : M (Table E) (list E) :=
  statement (fun t => (rows t, t)).

(** [repo.preload({ id, ...fields })]: [undefined] when no row has the
    id, otherwise the stored row with the given fields written over it. *)
Definition preload (id : Z) (merge : E -> E) : M (Table E) (option E) :=
  statement (fun t =>
    (option_map merge (find (fun r => Z.eqb (id_of r) id) (rows t)), t)).

(** [repo.save(entity)] of a new entity: the table assigns the id. *)
Definition save_new (make : Z -> E) : M (Table E) E :=
  statement (fun t =>
    let e := make (next_id t) in
    (e, mkTable (rows t ++ [e]) (next_id t + 1) (outage t))).

(** [repo.save(entity)] of a preloaded entity: its row is rewritten. *)
Definition save (e : E) : M (Table E) E :=
  statement (fun t =>
    (e, mkTable
          (map (fun r => if Z.eqb (id_of r) (id_of e) then e else r) (rows t))
          (next_id t) (outage t))).

(** [repo.delete(id)]: removes the rows with that id; deleting nothing
    is not an error. *)
Definition delete (id : Z) : M (Table E) unit :=
  statement (fun t =>
    (tt, mkTable (filter (fun r => negb (Z.eqb (id_of r) id)) (rows t))
                 (next_id t) (outage t))).
End Ops.
End Repository.

(* ===================================================================== *)
(** ** backend/src/users: mapper.ts and users.service.ts *)
(* ===================================================================== *)

Module Users.

Record UserEntity : Type := mkUser {
  id : Z;
  uid : string;
  name : string;
  email : string;
  password : string;
  cpf : string
}.

Record UserCreateDTO : Type := mkUserCreate {
  c_name : string;
  c_email : string;
  c_password : string;
  c_cpf : string
}.

Record UserDTO : Type := mkUserDTO {
  dto_id : Z;
  dto_uid : string;
  dto_name : string;
  dto_email : string;
  dto_cpf : string
}.

Record LoginUserDTO : Type := mkLogin {
  login_email : string;
  login_password : string
}.

(** [Partial<UserEntity>] as [mapUserDTO] builds it. *)
Record UserFields : Type := mkFields {
  f_name : string;
  f_email : string;
  f_password : string;
  f_cpf : string
}.

Definition UsersRepository : Type := Table UserEntity.

(** *** mapper.ts *)

(** One match of [/(\d{3})(\d{3})(\d{3})(\d{2})/] at the head of the text,
    rewritten as ['$1.$2.$3-$4'] and followed by the unmatched rest. *)
Definition mask_here (l : list ascii) : option (list ascii) :=
  if (11 <=? List.length l)%nat && forallb JS.isDigit (firstn 11 l) then
    Some (firstn 3 l ++ "."%char :: firstn 3 (skipn 3 l)
            ++ "."%char :: firstn 3 (skipn 6 l)
            ++ "-"%char :: firstn 2 (skipn 9 l) ++ skipn 11 l)%list
  else None.

(** [s.replace(/(\d{3})(\d{3})(\d{3})(\d{2})/, '$1.$2.$3-$4')]: the regular
    expression is not global, so only the leftmost match is rewritten. *)
Fixpoint mask_first (l : list ascii) : list ascii :=
  match mask_here l with
  | Some masked => masked
  | None =>
      match l with
      | [] => []
      | c :: l' => c :: mask_first l'
      end
  end.

Definition mask_cpf (s : string) : string := JS.str (mask_first (JS.chars s)).

Definition toUserDTO (entity : UserEntity) : UserDTO :=
  let cpf0 := JS.replace_non_digits (cpf entity) in
  {| dto_id := id entity;
     dto_uid := uid entity;
     dto_name := name entity;
     dto_email := email entity;
     dto_cpf := mask_cpf cpf0 |}.

(** [toUserDTO] called on what [findOne] resolved to: reading [entity.id]
    of [null] is a [TypeError]. *)
Definition toUserDTO_of (found : option UserEntity) : Result UserDTO :=
  match found with
  | Some entity => inr (toUserDTO entity)
  | None => inl (TypeError "Cannot read properties of null (reading 'id')")
  end.

(** *** users.service.ts *)

Definition mapUserDTO (dto : UserCreateDTO) : UserFields :=
  {| f_name := c_name dto;
     f_email := c_email dto;
     f_password := c_password dto;
     f_cpf := JS.replace_non_digits (c_cpf dto) |}.

Local Open Scope svc_scope.

Definition getUser (id0 : Z) : M UsersRepository UserDTO :=
  user <- Repository.findOne (fun u => Z.eqb (id u) id0) ;;
  match user with
  | None => throw (HttpException "User not found" BAD_REQUEST)
  | Some u => ret (toUserDTO u)
  end.

Definition getOneUser (id0 : Z) : M UsersRepository UserDTO := getUser id0.

(** [fresh_uid] is what [uuid.v4()] returns in this call. *)
Definition createUser (fresh_uid : string) (userDTO : UserCreateDTO)
  : M UsersRepository UserDTO :=
  userInDB <- Repository.findOne (fun u => String.eqb (email u) (c_email userDTO)) ;;
  match userInDB with
  | Some _ => throw (HttpException "User already exists" BAD_REQUEST)
  | None =>
      let fields := mapUserDTO userDTO in
      saved <- Repository.save_new
                 (fun new_id => mkUser new_id fresh_uid (f_name fields)
                                  (f_email fields) (f_password fields) (f_cpf fields)) ;;
      ret (toUserDTO saved)
  end.

Definition updateUser (id0 : Z) (userDTO : UserCreateDTO)
  : M UsersRepository UserDTO :=
  let fields := mapUserDTO userDTO in
  user <- Repository.preload id id0
            (fun u => mkUser id0 (uid u) (f_name fields) (f_email fields)
                        (f_password fields) (f_cpf fields)) ;;
  match user with
  | None => throw (HttpException "User not found" NOT_FOUND)
  | Some u =>
      saved <- Repository.save id u ;;
      ret (toUserDTO saved)
  end.

Definition getAllUsers : M UsersRepository (list UserDTO) :=
  result <- Repository.find_all ;;
  ret (map toUserDTO result).

Definition deleteUser (id0 : Z) : M UsersRepository unit :=
  try_catch (Repository.delete id id0)
            (fun exception => throw (HttpException (err_message exception) BAD_REQUEST)).

Section Login.
(** [comparePasswords] comes from [src/utils], which is not among the
    sources: the stored password first, the submitted one second. *)
Variable comparePasswords : string -> string -> bool.

Definition findByLogin (credentials : LoginUserDTO) : M UsersRepository UserDTO :=
  user <- Repository.findOne
            (fun u => String.eqb (email u) (login_email credentials)) ;;
  match user with
  | None => throw (HttpException "User not found" UNAUTHORIZED)
  | Some u =>
      if negb (comparePasswords (password u) (login_password credentials))
      then throw (HttpException "Invalid credentials" UNAUTHORIZED)
      else ret (toUserDTO u)
  end.
End Login.

Definition findOne (where_ : UserEntity -> bool) : M UsersRepository (option UserEntity) :=
  Repository.findOne where_.

Definition findByPayload (payload_uid : string) : M UsersRepository UserDTO :=
  found <- findOne (fun u => String.eqb (uid u) payload_uid) ;;
  fun t => (toUserDTO_of found, t).

End Users.

(* ===================================================================== *)
(** ** backend/src/auth/auth.service.ts *)
(* ===================================================================== *)

Module Auth.
Import Users.

Record RegistrationStatus : Type := mkRegistration {
  success : bool;
  message : string
}.

Record JwtPayload : Type := mkPayload { payload_uid : string }.

Record LoginStatus : Type := mkLoginStatus {
  accessToken : string;
  expiresIn : string;
  login_uid : string
}.

(** A reference to an object is truthy. *)
Definition truthy_object {A} (_ : A) : bool := true.

Local Open Scope svc_scope.

Definition register (fresh_uid : string) (userDto : UserCreateDTO)
  : M UsersRepository RegistrationStatus :=
  let status := {| success := true; message := "user registered" |} in
  try_catch
    (createUser fresh_uid userDto ;;; ret status)
    (fun err =>
       ret {| success := false;
              message := JS.or_else (err_message err) "user registration failed" |}).

Section Tokens.
(** The collaborators of the token: [JwtService.sign], the [EXPIRESIN]
    environment variable and [DEFAULT_EXPIRESIN] of [auth.module]. *)
Variable sign : JwtPayload -> string.
Variable env_EXPIRESIN : option string.
Variable DEFAULT_EXPIRESIN : string.
Variable comparePasswords : string -> string -> bool.

Definition _createToken (user : UserDTO) : string * string :=
  let payload := {| payload_uid := dto_uid user |} in
  let token := sign payload in
  (match env_EXPIRESIN with
   | Some e => JS.or_else e DEFAULT_EXPIRESIN
   | None => DEFAULT_EXPIRESIN
   end, token).

Definition login (loginUserDto : LoginUserDTO) : M UsersRepository LoginStatus :=
  user <- findByLogin comparePasswords loginUserDto ;;
  let token := _createToken user in
  ret {| accessToken := snd token; expiresIn := fst token; login_uid := dto_uid user |}.
End Tokens.

Definition validateUser (payload : JwtPayload) : M UsersRepository UserDTO :=
  user <- findByPayload (payload_uid payload) ;;
  if negb (truthy_object user)
  then throw (HttpException "Invalid token" UNAUTHORIZED)
  else ret user.

End Auth.

(* ===================================================================== *)
(** ** backend/src/suppliers/supplier.service.ts *)
(* ===================================================================== *)

Module Suppliers.
Section Service.
(** The columns of a supplier besides its id and the two DTOs are declared
    in [entities/supplier.entity.ts] and [dto/], which are not among the
    sources. *)
Variable SupplierFields : Type.
Variable CreateSupplierDto : Type.
Variable UpdateSupplierDto : Type.
Variable of_create : CreateSupplierDto -> SupplierFields.
Variable apply_update : UpdateSupplierDto -> SupplierFields -> SupplierFields.

Record Supplier : Type := mkSupplier {
  id : Z;
  fields : SupplierFields
}.

Definition SupplierRepository : Type := Table Supplier.

Local Open Scope svc_scope.

Definition findAll : M SupplierRepository (list Supplier) :=
  Repository.find_all.

Definition findOne (id0 : Z) : M SupplierRepository (option Supplier) :=
  Repository.findOne (fun s => Z.eqb (id s) id0).

Definition create (dto : CreateSupplierDto) : M SupplierRepository Supplier :=
  Repository.save_new (fun new_id => mkSupplier new_id (of_create dto)).

Definition update (id0 : Z) (dto : UpdateSupplierDto) : M SupplierRepository Supplier :=
  supplier <- Repository.preload id id0
                (fun s => mkSupplier id0 (apply_update dto (fields s))) ;;
  match supplier with
  | None => throw (NotFoundException "Supplier not found")
  | Some s => Repository.save id s
  end.

Definition remove (id0 : Z) : M SupplierRepository unit :=
  Repository.delete id id0.

(** The message of [findByCode] embeds the code; [show_code] renders it. *)
Variable show_code : Z -> string.

Definition findByCode (code : Z) : M SupplierRepository Supplier :=
  supplier <- Repository.findOne (fun s => Z.eqb (id s) code) ;;
  match supplier with
  | None => throw (NotFoundException
                     ("Fornecedor com código " ++ show_code code ++ " não encontrado."))
  | Some s => ret s
  end.
End Service.

Arguments id {SupplierFields}.
Arguments fields {SupplierFields}.
Arguments mkSupplier {SupplierFields}.
End Suppliers.

(* ===================================================================== *)
(** ** The SQL operators of the document query *)
(* ===================================================================== *)

Module SQL.

(** A [LIKE] pattern: [%] stands for any run of characters, [_] for any one
    character, and a backslash takes the next character literally. *)
Inductive token : Type :=
| AnyRun
| AnyChar
| Lit (c : ascii).

Fixpoint tokens (p : list ascii) : list token :=
  match p with
  | [] => []
  | c :: p' =>
      if Ascii.eqb c "%" then AnyRun :: tokens p'
      else if Ascii.eqb c "_" then AnyChar :: tokens p'
      else if Ascii.eqb c "\" then
        match p' with
        | [] => [Lit c]
        | d :: p'' => Lit d :: tokens p''
        end
      else Lit c :: tokens p'
  end.

(** Does the text match the pattern from its first to its last character? *)
Fixpoint matches (p : list token) (s : list ascii) {struct p} : bool :=
  match p with
  | [] => match s with [] => true | _ :: _ => false end
  | AnyRun :: p' =>
      (fix skip (s : list ascii) : bool :=
         matches p' s ||
         match s with
         | [] => false
         | _ :: s' => skip s'
         end) s
  | AnyChar :: p' =>
      match s with
      | [] => false
      | _ :: s' => matches p' s'
      end
  | Lit c :: p' =>
      match s with
      | [] => false
      | x :: s' => Ascii.eqb x c && matches p' s'
      end
  end.

(** [text LIKE pattern] *)
Definition like (text pattern : string) : bool :=
  matches (tokens (JS.chars pattern)) (JS.chars text).

(** [LOWER(text)] *)
Definition LOWER (text : string) : string := JS.toLowerCase text.

End SQL.

(* ===================================================================== *)
(** ** backend/src/documents: documents.service.ts *)
(* ===================================================================== *)

Module Documents.

(** A stored timestamp; [DATE(...)] keeps its calendar day, written
    [YYYY-MM-DD]. *)
Record Timestamp : Type := mkTimestamp {
  day : string;
  time_of_day : string
}.

Definition DATE (ts : Timestamp) : string := day ts.

(** The columns the service reads.  [user] and [product] are the joined
    rows' ids, absent when the document has none. *)
Record DocumentEntity : Type := mkDocument {
  id : Z;
  filename : string;
  file_type : string;
  upload_date : Timestamp;
  user : option Z;
  product : option Z
}.

(** Modelled from the spec: [DocumentFilter] of [dto/document-filter.dto.ts],
    which is not among the sources: five optional predicates, on the file
    type, the owner id, the id, the filename and the upload date. *)
Record DocumentFilter : Type := mkFilter {
  f_file_type : option string;
  f_user_id : option Z;
  f_id : option Z;
  f_filename : option string;
  f_upload_date : option string
}.

Definition DocumentsRepository : Type := Table DocumentEntity.

(** JavaScript truthiness of an optional string and of an optional number:
    [undefined], [''] and [0] are falsy.  [Number(n)] of a number is [n]. *)
Definition truthy_string (v : option string) : option string :=
  match v with
  | Some EmptyString => None
  | other => other
  end.

Definition truthy_number (v : option Z) : option Z :=
  match v with
  | Some 0%Z => None
  | other => other
  end.

(** The query under construction: the conditions added so far. *)
Definition QueryBuilder : Type := list (DocumentEntity -> bool).

Definition createQueryBuilder : QueryBuilder := [].

Definition andWhere (query : QueryBuilder) (condition : DocumentEntity -> bool)
  : QueryBuilder := (query ++ [condition])%list.

Definition satisfies (query : QueryBuilder) (doc : DocumentEntity) : bool :=
  forallb (fun condition => condition doc) query.

Definition getMany (query : QueryBuilder) : M DocumentsRepository (list DocumentEntity) :=
  Repository.statement (fun t => (filter (satisfies query) (rows t), t)).

Definition eq_opt_id (owner : option Z) (wanted : Z) : bool :=
  match owner with
  | Some i => Z.eqb i wanted
  | None => false
  end.

Section Service.
(** [toDocumentDTO] and [DocumentDTO] belong to the documents' mapper and
    DTO files, which are not among the sources. *)
Variable DocumentDTO : Type.
Variable toDocumentDTO : DocumentEntity -> DocumentDTO.

Local Open Scope svc_scope.

Definition findWithFilters (filters : DocumentFilter)
  : M DocumentsRepository (list DocumentDTO) :=
  let query := createQueryBuilder in
  let query :=
    match truthy_string (f_file_type filters) with
    | Some ft => andWhere query (fun doc => String.eqb (file_type doc) ft)
    | None => query
    end in
  let query :=
    match truthy_number (f_user_id filters) with
    | Some uid => andWhere query (fun doc => eq_opt_id (user doc) uid)
    | None => query
    end in
  let query :=
    match truthy_number (f_id filters) with
    | Some i => andWhere query (fun doc => Z.eqb (id doc) i)
    | None => query
    end in
  let query :=
    match truthy_string (f_filename filters) with
    | Some fname =>
        andWhere query
          (fun doc => SQL.like (SQL.LOWER (filename doc))
                               ("%" ++ JS.toLowerCase fname ++ "%"))
    | None => query
    end in
  let query :=
    match truthy_string (f_upload_date filters) with
    | Some d => andWhere query (fun doc => String.eqb (DATE (upload_date doc)) d)
    | None => query
    end in
  docs <- getMany query ;;
  ret (map toDocumentDTO docs).

Definition findById (id0 : Z) : M DocumentsRepository DocumentDTO :=
  doc <- Repository.findOne (fun d => Z.eqb (id d) id0) ;;
  match doc with
  | None => throw (HttpException "Document not found" NOT_FOUND)
  | Some d => ret (toDocumentDTO d)
  end.
End Service.

Definition getDocumentById (id0 : Z) : M DocumentsRepository (option DocumentEntity) :=
  Repository.findOne (fun d => Z.eqb (id d) id0).

End Documents.

(* ===================================================================== *)
(** ** frontend: services/product-entry.service.ts *)
(* ===================================================================== *)

Module ProductEntryService.

(** [randomNum] is the value of [Math.floor(Math.random() * 9999)] in this
    call and [shuffle] the rearrangement that [sort(() => Math.random() - 0.5)]
    performs in it. *)
Definition generateEntryId (randomNum : N) (shuffle : list ascii -> list ascii)
           (productName : string) : string :=
  let initials :=
    JS.toUpperCase (JS.join (map JS.charAt0 (JS.split " " productName))) in
  let randomNum := JS.padStart 4 "0" (JS.toString randomNum) in
  let combined := JS.str (shuffle (JS.chars (initials ++ randomNum))) in
  JS.substring0 6 combined.

End ProductEntryService.

(* ===================================================================== *)
(** ** JavaScript numbers: IEEE 754 doubles *)
(* ===================================================================== *)

Module Number.
Local Open Scope float_scope.

(** [parseFloat(x)] of a number renders it and reads it back: the number
    itself, the sign of a zero being lost. *)
Definition parseFloat (x : float) : float :=
  if PrimFloat.is_zero x then 0 else x.

(** [x || 0]: [NaN] and the zeros are falsy. *)
Definition or_zero (x : float) : float :=
  if PrimFloat.is_nan x || PrimFloat.is_zero x then 0 else x.

(** The integer [n] for which [n / 100] is closest to [m * 2^e], the larger
    one of two equally close. *)
Definition hundredths (m : positive) (e : Z) : Z :=
  if (0 <=? e)%Z then (100 * Z.pos m * 2 ^ e)%Z
  else ((200 * Z.pos m + 2 ^ (- e)) / (2 * 2 ^ (- e)))%Z.

(** Is [m * 2^e] at least [10^21]? *)
Definition at_least_1e21 (m : positive) (e : Z) : bool :=
  if (0 <=? e)%Z then (10 ^ 21 <=? Z.pos m * 2 ^ e)%Z
  else (10 ^ 21 * 2 ^ (- e) <=? Z.pos m)%Z.

(** The digits of [n] with a point before the last two, after padding to
    three digits. *)
Definition with_two_decimals (n : Z) : string :=
  let m := JS.padStart 3 "0" (JS.toString (Z.to_N n)) in
  let k := String.length m in
  String.substring 0 (k - 2) m ++ "." ++ String.substring (k - 2) 2 m.

Section ToFixed.
(** [Number::toString] is needed for the doubles from [10^21] on, which
    [toFixed] renders in exponent notation; it is left to the run time. *)
Variable Number_toString : float -> string.

(** [x.toFixed(2)] *)
Definition toFixed2 (x : float) : string :=
  match Prim2SF x with
  | S754_nan => "NaN"
  | S754_infinity false => "Infinity"
  | S754_infinity true => "-Infinity"
  | S754_zero _ => "0.00"
  | S754_finite s m e =>
      if at_least_1e21 m e then Number_toString x
      else (if s then "-" else EmptyString) ++ with_two_decimals (hundredths m e)
  end.
End ToFixed.

End Number.

(* ===================================================================== *)
(** ** frontend: components/product-entry/product-entry.component.ts *)
(* ===================================================================== *)

Module ProductEntryComponent.
Local Open Scope float_scope.

(** The controls of [entryForm] that carry the amounts; a number input
    holds [null] or a number.  [others_valid] sums up the validators of the
    remaining controls (product, supplier, date, invoice number). *)
Record EntryForm : Type := mkForm {
  quantity : option float;
  unitValue : option float;
  totalValue : option string;
  others_valid : bool
}.

(** A [File] of the browser; [dataURL] is what [FileReader.readAsDataURL]
    produces for it. *)
Record File : Type := mkFile {
  file_name : string;
  type : string;
  size : N;
  dataURL : string
}.

Record UploadFile : Type := mkUpload {
  name : string;
  base64 : option string
}.

(** The fields of the component the handlers below touch.  [alerts] logs
    the calls of [alert]; [reading] holds the files a [FileReader] has been
    started on and whose [onload] has not run yet. *)
Record Component : Type := mkComponent {
  entryForm : EntryForm;
  uploadFile : option UploadFile;
  fileError : bool;
  file_size_error : bool;
  alerts : list string;
  reading : list File
}.

Definition MAX_FILE_SIZE : N := 30 * 1024.

Definition initial : Component :=
  {| entryForm := {| quantity := None; unitValue := None;
                     totalValue := Some EmptyString; others_valid := false |};
     uploadFile := None;
     fileError := false;
     file_size_error := false;
     alerts := [];
     reading := [] |}.

Definition with_form (c : Component) (f : EntryForm) : Component :=
  mkComponent f (uploadFile c) (fileError c) (file_size_error c) (alerts c) (reading c).

(** [parseFloat(control.value)]: [null] reads as [NaN]. *)
Definition parseFloat_value (v : option float) : float :=
  match v with
  | None => PrimFloat.nan
  | Some x => Number.parseFloat x
  end.

Section Handlers.
Variable Number_toString : float -> string.

Definition calculateTotal (c : Component) : Component :=
  let form := entryForm c in
  let q := Number.or_zero (parseFloat_value (quantity form)) in
  let v := Number.or_zero (parseFloat_value (unitValue form)) in
  with_form c
    (mkForm (quantity form) (unitValue form)
            (Some (Number.toFixed2 Number_toString (q * v)))
            (others_valid form)).

(** The two subscriptions of [setupFormSubscriptions]: the control has
    its new value when [valueChanges] fires. *)
Definition quantity_changed (x : option float) (c : Component) : Component :=
  let form := entryForm c in
  calculateTotal
    (with_form c (mkForm x (unitValue form) (totalValue form) (others_valid form))).

Definition unitValue_changed (x : option float) (c : Component) : Component :=
  let form := entryForm c in
  calculateTotal
    (with_form c (mkForm (quantity form) x (totalValue form) (others_valid form))).

(** [resetForm]: the controls are reset one after the other, each reset
    firing the control's [valueChanges]. *)
Definition resetForm (c : Component) : Component :=
  let c := quantity_changed None c in
  let c := unitValue_changed None c in
  let form := entryForm c in
  with_form c (mkForm (quantity form) (unitValue form) None false).

(** [Validators.required] and [Validators.min(0.01)] on an amount; the
    literal is the double that [0.01] denotes. *)
Definition valid_amount (v : option float) : bool :=
  match v with
  | None => false
  | Some x => negb (Number.parseFloat x <? 0x1.47ae147ae147bp-7)
  end.

Definition valid (form : EntryForm) : bool :=
  others_valid form && valid_amount (quantity form) && valid_amount (unitValue form).

(** The parts of the multipart request that carry the amounts and the file. *)
Record FormData : Type := mkFormData {
  fd_quantity : string;
  fd_unitValue : string;
  fd_totalValue : string;
  fd_file : UploadFile
}.

(** [String(v)] *)
Definition String_of_number (v : option float) : string :=
  match v with
  | None => "null"
  | Some x => Number_toString x
  end.

Definition String_of_text (v : option string) : string :=
  match v with
  | None => "null"
  | Some s => s
  end.

(** [onSubmit]: the component after the handler and the request it
    posts, if any. *)
Definition onSubmit (c : Component) : Component * option FormData :=
  if negb (valid (entryForm c)) then (c, None)
  else
    match uploadFile c with
    | None =>
        (mkComponent (entryForm c) (uploadFile c) true (file_size_error c)
                     (alerts c) (reading c), None)
    | Some file =>
        let c' := mkComponent (entryForm c) (uploadFile c) false (file_size_error c)
                              (alerts c) (reading c) in
        let formValue := entryForm c' in
        (c', Some {| fd_quantity := String_of_number (quantity formValue);
                     fd_unitValue := String_of_number (unitValue formValue);
                     fd_totalValue := String_of_text (totalValue formValue);
                     fd_file := file |})
    end.

(** [onFileSelected] on the files of the input element. *)
Definition onFileSelected (files : list File) (c : Component) : Component :=
  match files with
  | [] => c
  | file :: _ =>
      if negb (String.eqb (type file) "application/pdf") then
        mkComponent (entryForm c) (uploadFile c) (fileError c) (file_size_error c)
                    (alerts c ++ ["Apenas arquivos PDF são permitidos!"]) (reading c)
      else if (MAX_FILE_SIZE <? size file)%N then
        mkComponent (entryForm c) (uploadFile c) (fileError c) true
                    (alerts c) (reading c)
      else
        mkComponent (entryForm c) (uploadFile c) (fileError c) false
                    (alerts c) (reading c ++ [file])
  end.

(** [reader.onload] of the oldest read in progress. *)
Definition reader_onload (c : Component) : Component :=
  match reading c with
  | [] => c
  | file :: rest =>
      let base64 := nth_error (JS.split "," (dataURL file)) 1 in
      mkComponent (entryForm c) (Some {| name := file_name file; base64 := base64 |})
                  (fileError c) (file_size_error c) (alerts c) rest
  end.

Definition removeFile (c : Component) : Component :=
  mkComponent (entryForm c) None (fileError c) (file_size_error c)
              (alerts c) (reading c).

(** What can happen to the component; [FormReset] is [onCancel] and the
    reset that follows a saved entry. *)
Inductive Event : Type :=
| QuantityInput (x : option float)
| UnitValueInput (x : option float)
| OthersInput (ok : bool)
| FileSelected (files : list File)
| ReaderLoaded
| RemoveFile
| FormReset
| Submit.

Definition step (c : Component) (ev : Event) : Component :=
  match ev with
  | QuantityInput x => quantity_changed x c
  | UnitValueInput x => unitValue_changed x c
  | OthersInput ok =>
      let form := entryForm c in
      with_form c (mkForm (quantity form) (unitValue form) (totalValue form) ok)
  | FileSelected files => onFileSelected files c
  | ReaderLoaded => reader_onload c
  | RemoveFile => removeFile c
  | FormReset => resetForm c
  | Submit => fst (onSubmit c)
  end.

Definition run (evs : list Event) : Component := fold_left step evs initial.

End Handlers.

End ProductEntryComponent.

(* ===================================================================== *)
(** ** backend/src/auth/auth.controller.ts *)
(* ===================================================================== *)

Module AuthController.
Import Users Auth.
Local Open Scope svc_scope.

(** [POST /auth/register] *)
Definition register (fresh_uid : string) (createUserDto : UserCreateDTO)
  : M UsersRepository RegistrationStatus :=
  result <- Auth.register fresh_uid createUserDto ;;
  if negb (success result)
  then throw (HttpException (message result) BAD_REQUEST)
  else ret result.

End AuthController.

(* ===================================================================== *)
(** ** frontend: the authentication service and its token *)
(* ===================================================================== *)

Module AuthClient.

(** [localStorage]: the items it holds.  Only [getItem], [setItem] and
    [removeItem] are used, so the order of the items plays no role. *)
Definition Storage : Type := list (string * string).

Fixpoint getItem (key : string) (s : Storage) : option string :=
  match s with
  | [] => None
  | (k, v) :: s' => if String.eqb k key then Some v else getItem key s'
  end.

Definition removeItem (key : string) (s : Storage) : Storage :=
  filter (fun item => negb (String.eqb (fst item) key)) s.

Definition setItem (key value : string) (s : Storage) : Storage :=
  (key, value) :: removeItem key s.

Definition setToken (token : string) (s : Storage) : Storage :=
  setItem "accessToken" token s.

Definition getToken (s : Storage) : option string := getItem "accessToken" s.

(** [!!this.getToken()]: [null] and the empty string are falsy. *)
Definition isLoggedIn (s : Storage) : bool :=
  match getToken s with
  | Some (String _ _) => true
  | _ => false
  end.

Definition logout (s : Storage) : Storage := removeItem "accessToken" s.

(** [login]: what the [tap] does once the request has answered with the
    [accessToken] of the response; a failed request does not reach it. *)
Definition login (response : Result string) (s : Storage) : Storage :=
  match response with
  | inr accessToken => setToken accessToken s
  | inl _ => s
  end.

(** The calls a session makes. *)
Inductive Call : Type :=
| Login (response : Result string)
| Logout.

Definition call (s : Storage) (c : Call) : Storage :=
  match c with
  | Login response => login response s
  | Logout => logout s
  end.

End AuthClient.

(* ===================================================================== *)
(** ** frontend: the table filter and the pickers of the product-entry
       component *)
(* ===================================================================== *)

Module EntryPickers.








Section Pickers.
(** [Product] and [Supplier] come from [models/product-entry.model], which
    is not among the sources: the type of their ids is left open, with its
    truthiness. *)
Variable Id : Type.
Variable truthy_id : Id -> bool.
(** [isNaN(Number(text))] *)
Variable Number_isNaN : string -> bool.

Record Product : Type := mkProduct {
  id : Id;
  name : string
}.

(** The controls of [entryForm] that the pickers write. *)
Record PickerForm : Type := mkPicker {
  productId : option Id;
  productNameControl : string
}.


(** [onProductNameSelected] *)
Definition onProductNameSelected (products : list Product) (selectedName : string)
           (form : PickerForm) : PickerForm :=
  match find (fun p => String.eqb (name p) selectedName) products with
  | Some product => mkPicker (Some (id product)) (name product)
  | None => form
  end.

(** [onProductOptionSelected] *)
Definition onProductOptionSelected (products : list Product) (selectedValue : string)
           (form : PickerForm) : PickerForm :=
  match selectedValue with
  | EmptyString => form
  | _ =>
      if Number_isNaN selectedValue then form
      else
        match find (fun p => truthy_id (id p)) products with
        | Some product => mkPicker (Some (id product)) (name product)
        | None => form
        end
  end.
End Pickers.

Arguments id {Id}.
Arguments name {Id}.
Arguments mkProduct {Id}.
Arguments productId {Id}.
Arguments productNameControl {Id}.
Arguments mkPicker {Id}.

End EntryPickers.

(* ===================================================================== *)
(** ** frontend: looking a product up by the id typed *)
(* ===================================================================== *)

Module IdLookup.
Local Open Scope float_scope.

(** What the handler leaves: the two controls, the alerts shown and the ids
    asked of the server. *)
Record Outcome : Type := mkOutcome {
  form : EntryPickers.PickerForm float;
  alerts : list string;
  requested : list float
}.

Section Lookup.
(** [GET /products/:id]: the body of the answer, a product or [null], or
    the error of the request. *)
Variable http_get : float -> Result (option (EntryPickers.Product float)).

(** [ProductEntryService.getProductById]: what the observable emits, or its
    error, and the ids requested. *)
Definition getProductById (id : float)
  : Result (option (EntryPickers.Product float)) * list float :=
  if PrimFloat.is_nan id then (inr None, [])
  else
    (match http_get id with
     | inr body => inr body
     | inl _ => inr None
     end, [id]).

(** [onProductIdBlur], the subscription having run. *)
Definition onProductIdBlur (before : EntryPickers.PickerForm float) : Outcome :=
  let invalid :=
    mkOutcome (EntryPickers.mkPicker None EmptyString) ["ID do produto inválido"] [] in
  match EntryPickers.productId before with
  | None => invalid
  | Some productIdNum =>
      if PrimFloat.is_nan productIdNum || (productIdNum <=? 0) then invalid
      else
        let (emitted, requests) := getProductById productIdNum in
        match emitted with
        | inr (Some product) =>
            mkOutcome (EntryPickers.mkPicker (EntryPickers.productId before)
                                             (EntryPickers.name product))
                      [] requests
        | inr None =>
            mkOutcome (EntryPickers.mkPicker None EmptyString)
                      ["Produto não encontrado. Cadastre antes de dar entrada."]
                      requests
        | inl _ =>
            mkOutcome before ["Erro ao buscar produto. Tente novamente."] requests
        end
  end.
End Lookup.

End IdLookup.

(* ===================================================================== *)
(** ** Sample data *)
(* ===================================================================== *)

Module Samples.
Import Users.

Definition alice : UserEntity :=
  mkUser 1 "9b2f-alice" "Alice" "alice@example.com" "hash-of-secret" "12345678901".

Definition one_user : UsersRepository := mkTable [alice] 2 None.

Definition no_users : UsersRepository := mkTable [] 1 None.

Definition bob_input : UserCreateDTO :=
  mkUserCreate "Bob" "bob@example.com" "pw" "987.654.321-00".

Definition eve_input : UserCreateDTO :=
  mkUserCreate "Eve" "eve@example.com" "pw" "1-2.3".

Definition bob_again : UserCreateDTO :=
  mkUserCreate "Robert" "bob@example.com" "other" "111.222.333-44".

(** A stand-in for [comparePasswords]: the stored hash of [p] is
    ["hash-of-" ++ p]. *)
Definition compare_sample (stored submitted : string) : bool :=
  String.eqb stored ("hash-of-" ++ submitted).

Definition sign_sample (p : Auth.JwtPayload) : string :=
  "jwt:" ++ Auth.payload_uid p.

Definition no_suppliers : Suppliers.SupplierRepository string := mkTable [] 1 None.

Definition invoice : Documents.DocumentEntity :=
  Documents.mkDocument 1 "Invoice_2024.pdf" "application/pdf"
    (Documents.mkTimestamp "2024-03-01" "10:15:00") (Some 1%Z) None.

Definition report : Documents.DocumentEntity :=
  Documents.mkDocument 2 "report.pdf" "application/pdf"
    (Documents.mkTimestamp "2024-03-02" "08:00:00") (Some 2%Z) (Some 5%Z).

Definition two_documents : Documents.DocumentsRepository :=
  mkTable [invoice; report] 3 None.

Definition no_filter : Documents.DocumentFilter :=
  Documents.mkFilter None None None None None.

Definition small_pdf : ProductEntryComponent.File :=
  ProductEntryComponent.mkFile "nf.pdf" "application/pdf" 2048
    "data:application/pdf;base64,JVBERi0xLjQK".

Definition picture : ProductEntryComponent.File :=
  ProductEntryComponent.mkFile "photo.png" "image/png" 2048
    "data:image/png;base64,iVBORw0KGgo=".

Definition big_pdf : ProductEntryComponent.File :=
  ProductEntryComponent.mkFile "scan.pdf" "application/pdf" 30721
    "data:application/pdf;base64,JVBERi0xLjcK".

(** A stand-in for [Number::toString], enough for the sample amounts. *)
Definition show_sample (x : float) : string :=
  if PrimFloat.eqb x 2 then "2"
  else if PrimFloat.eqb x 10.5 then "10.5"
  else "?".
End Samples.

(* ===================================================================== *)
(** ** Vocabulary of the properties *)
(* ===================================================================== *)

(** The outcome is an [HttpException] of the given status. *)
Definition fails_with {A} (status : HttpStatus) (r : Result A) : Prop :=
  exists message, r = inl (HttpException message status).

(** No row of the table carries the id. *)
Definition absent {E} (id_of : E -> Z) (id0 : Z) (t : Table E) : Prop :=
  forall r, In r (rows t) -> id_of r <> id0.

(** The row [createUser] inserts. *)
Definition new_user (fresh_uid : string) (userDTO : Users.UserCreateDTO)
           (t : Users.UsersRepository) : Users.UserEntity :=
  Users.mkUser (next_id t) fresh_uid (Users.c_name userDTO) (Users.c_email userDTO)
               (Users.c_password userDTO) (JS.replace_non_digits (Users.c_cpf userDTO)).

(** The canonical rendering of a CPF, [000.000.000-00]: fourteen characters,
    digits but for the two points and the hyphen. *)
Definition canonical_cpf (s : string) : bool :=
  match JS.chars s with
  | [d1; d2; d3; p1; d4; d5; d6; p2; d7; d8; d9; h; d10; d11] =>
      forallb JS.isDigit [d1; d2; d3; d4; d5; d6; d7; d8; d9; d10; d11]
      && Ascii.eqb p1 "." && Ascii.eqb p2 "." && Ascii.eqb h "-"
  | _ => false
  end.

(** The five predicates of the document filter in the specification's
    words: file type equality, owner id equality, id equality,
    case-insensitive substring on the filename, exact upload date. *)
Definition is_file_type (ft : string) (doc : Documents.DocumentEntity) : bool :=
  String.eqb (Documents.file_type doc) ft.

Definition is_owned_by (owner : Z) (doc : Documents.DocumentEntity) : bool :=
  match Documents.user doc with
  | Some i => Z.eqb i owner
  | None => false
  end.

Definition has_id (i : Z) (doc : Documents.DocumentEntity) : bool :=
  Z.eqb (Documents.id doc) i.

Definition filename_contains (part : string) (doc : Documents.DocumentEntity) : bool :=
  JS.includes (JS.toLowerCase part) (JS.toLowerCase (Documents.filename doc)).

Definition uploaded_on (d : string) (doc : Documents.DocumentEntity) : bool :=
  String.eqb (Documents.DATE (Documents.upload_date doc)) d.

(** A predicate that is not given imposes no constraint. *)
Definition constraint {V} (given : option V) (holds : V -> Documents.DocumentEntity -> bool)
           (doc : Documents.DocumentEntity) : bool :=
  match given with
  | Some v => holds v doc
  | None => true
  end.





(** The conditions [findWithFilters] has added when it runs the query. *)
Definition query_of (filters : Documents.DocumentFilter) : Documents.QueryBuilder :=
  let query := Documents.createQueryBuilder in
  let query :=
    match Documents.truthy_string (Documents.f_file_type filters) with
    | Some ft =>
        Documents.andWhere query (fun doc => String.eqb (Documents.file_type doc) ft)
    | None => query
    end in
  let query :=
    match Documents.truthy_number (Documents.f_user_id filters) with
    | Some uid =>
        Documents.andWhere query
          (fun doc => Documents.eq_opt_id (Documents.user doc) uid)
    | None => query
    end in
  let query :=
    match Documents.truthy_number (Documents.f_id filters) with
    | Some i => Documents.andWhere query (fun doc => Z.eqb (Documents.id doc) i)
    | None => query
    end in
  let query :=
    match Documents.truthy_string (Documents.f_filename filters) with
    | Some fname =>
        Documents.andWhere query
          (fun doc => SQL.like (SQL.LOWER (Documents.filename doc))
                               ("%" ++ JS.toLowerCase fname ++ "%"))
    | None => query
    end in
  match Documents.truthy_string (Documents.f_upload_date filters) with
  | Some d =>
      Documents.andWhere query
        (fun doc => String.eqb (Documents.DATE (Documents.upload_date doc)) d)
  | None => query
  end.

(** The words of a name: what stands between its spaces, the empty pieces
    left out. *)
Definition words (name : string) : list string :=
  filter (fun w => negb (String.eqb w EmptyString)) (JS.split " " name).

Definition first_char (w : string) : option ascii :=
  match w with
  | EmptyString => None
  | String c _ => Some c
  end.

Definition alphanumeric (c : ascii) : bool :=
  JS.isUpper c || JS.isLower c || JS.isDigit c.

Definition upper_or_digit (c : ascii) : bool :=
  JS.isUpper c || JS.isDigit c.

(** The random number of [generateEntryId] after padding has four digits. *)
Definition four_digits (n : N) : bool :=
  let padded := JS.chars (JS.padStart 4 "0" (JS.toString n)) in
  Nat.eqb (List.length padded) 4 && forallb JS.isDigit padded.

(** A file that [onFileSelected] lets through: a PDF of at most 30 KB. *)
Definition acceptable (file : ProductEntryComponent.File) : Prop :=
  ProductEntryComponent.type file = "application/pdf"
  /\ (ProductEntryComponent.size file <= 30 * 1024)%N.

(** The pending upload that a completed read of the file leaves. *)
Definition upload_of (file : ProductEntryComponent.File) : ProductEntryComponent.UploadFile :=
  ProductEntryComponent.mkUpload
    (ProductEntryComponent.file_name file)
    (nth_error (JS.split "," (ProductEntryComponent.dataURL file)) 1).



(** The two answers of [register]. *)
Definition registered : Auth.RegistrationStatus :=
  {| Auth.success := true; Auth.message := "user registered" |}.

Definition rejected (e : Exception) : Auth.RegistrationStatus :=
  {| Auth.success := false;
     Auth.message := JS.or_else (err_message e) "user registration failed" |}.

(* ===================================================================== *)
(** ** Vocabulary of the further properties *)
(* ===================================================================== *)

(** The ids of a table are pairwise different and below its counter. *)
Definition ids_fresh {E} (id_of : E -> Z) (t : Table E) : Prop :=
  NoDup (map id_of (rows t)) /\ Forall (fun r => (id_of r < next_id t)%Z) (rows t).

(** No two stored users share an email. *)
Definition emails_unique (t : Users.UsersRepository) : Prop :=
  NoDup (map Users.email (rows t)).

(** The calls of the users' and the authentication service that reach the
    users' table, and the table each leaves behind. *)
Inductive UserCall : Type :=
| CallCreateUser (fresh_uid : string) (userDTO : Users.UserCreateDTO)
| CallRegister (fresh_uid : string) (userDTO : Users.UserCreateDTO)
| CallUpdateUser (id : Z) (userDTO : Users.UserCreateDTO)
| CallDeleteUser (id : Z)
| CallGetUser (id : Z)
| CallGetAllUsers
| CallValidateUser (payload : Auth.JwtPayload).

Definition after_call (t : Users.UsersRepository) (c : UserCall) : Users.UsersRepository :=
  match c with
  | CallCreateUser fresh_uid userDTO => snd (Users.createUser fresh_uid userDTO t)
  | CallRegister fresh_uid userDTO => snd (AuthController.register fresh_uid userDTO t)
  | CallUpdateUser id userDTO => snd (Users.updateUser id userDTO t)
  | CallDeleteUser id => snd (Users.deleteUser id t)
  | CallGetUser id => snd (Users.getUser id t)
  | CallGetAllUsers => snd (Users.getAllUsers t)
  | CallValidateUser payload => snd (Auth.validateUser payload t)
  end.

Definition is_update (c : UserCall) : bool :=
  match c with
  | CallUpdateUser _ _ => true
  | _ => false
  end.

(** The row [updateUser] writes over the row [u0]. *)
Definition updated_user (id0 : Z) (userDTO : Users.UserCreateDTO) (u0 : Users.UserEntity)
  : Users.UserEntity :=
  Users.mkUser id0 (Users.uid u0) (Users.c_name userDTO) (Users.c_email userDTO)
               (Users.c_password userDTO) (JS.replace_non_digits (Users.c_cpf userDTO)).

(** The token [login] answers with for a user of the given uid. *)
Definition token_for (sign : Auth.JwtPayload -> string) (env_EXPIRESIN : option string)
           (DEFAULT_EXPIRESIN : string) (uid : string) : Auth.LoginStatus :=
  {| Auth.accessToken := sign {| Auth.payload_uid := uid |};
     Auth.expiresIn := match env_EXPIRESIN with
                       | Some e => JS.or_else e DEFAULT_EXPIRESIN
                       | None => DEFAULT_EXPIRESIN
                       end;
     Auth.login_uid := uid |}.

(** The filename condition as the query has it. *)
Definition like_filename (part : string) (doc : Documents.DocumentEntity) : bool :=
  SQL.like (SQL.LOWER (Documents.filename doc)) ("%" ++ JS.toLowerCase part ++ "%").

(** The conjunction that the conditions of [findWithFilters] amount to. *)
Definition query_selects (filters : Documents.DocumentFilter)
           (doc : Documents.DocumentEntity) : bool :=
  constraint (Documents.truthy_string (Documents.f_file_type filters)) is_file_type doc
  && constraint (Documents.truthy_number (Documents.f_user_id filters)) is_owned_by doc
  && constraint (Documents.truthy_number (Documents.f_id filters)) has_id doc
  && constraint (Documents.truthy_string (Documents.f_filename filters)) like_filename doc
  && constraint (Documents.truthy_string (Documents.f_upload_date filters)) uploaded_on doc.

(** One filter asks for no more than another: it is off, or it is the same. *)
Definition off_or_same {V} (truthy : option V -> option V) (loose strict : option V) : Prop :=
  truthy loose = None \/ truthy loose = truthy strict.

Definition relaxes (loose strict : Documents.DocumentFilter) : Prop :=
  off_or_same Documents.truthy_string
    (Documents.f_file_type loose) (Documents.f_file_type strict)
  /\ off_or_same Documents.truthy_number
       (Documents.f_user_id loose) (Documents.f_user_id strict)
  /\ off_or_same Documents.truthy_number (Documents.f_id loose) (Documents.f_id strict)
  /\ off_or_same Documents.truthy_string
       (Documents.f_filename loose) (Documents.f_filename strict)
  /\ off_or_same Documents.truthy_string
       (Documents.f_upload_date loose) (Documents.f_upload_date strict).

(** An amount of the form that is not an infinity. *)
Definition finite_amount (a : option float) : bool :=
  match a with
  | Some x => negb (PrimFloat.is_infinity x)
  | None => true
  end.


(* ===================================================================== *)
(** ** Further sample data *)
(* ===================================================================== *)

Module MoreSamples.

Definition alice_again : Users.UserCreateDTO :=
  Users.mkUserCreate "Alice B." "alice@example.com" "other" "000.000.000-00".

Definition failing_store : Users.UsersRepository :=
  mkTable [Samples.alice] 2 (Some (QueryFailedError "Connection lost")).

Definition one_supplier : Suppliers.SupplierRepository string :=
  mkTable [Suppliers.mkSupplier 1 "ACME"] 2 None.


Definition catalogue : list (EntryPickers.Product Z) :=
  [EntryPickers.mkProduct 1%Z "Caixa"; EntryPickers.mkProduct 2%Z "Papel A4"].

Definition nonzero (i : Z) : bool := negb (Z.eqb i 0).

(** A stand-in for [isNaN(Number(text))]: texts of digits are numbers. *)
Definition not_digits (text : string) : bool :=
  negb (forallb JS.isDigit (JS.chars text)).

Definition other_items : AuthClient.Storage := [("theme", "dark")].

(** A server that knows product 1 and answers every other id with an error. *)
Definition products_endpoint (id : float)
  : Result (option (EntryPickers.Product float)) :=
  if PrimFloat.eqb id 1
  then inr (Some (EntryPickers.mkProduct 1%float "Caixa"))
  else inl (HttpException "Not Found" NOT_FOUND).

End MoreSamples.

(* ===================================================================== *)
(** * Properties *)
(* ===================================================================== *)

(** ** The repository *)

Section RepositoryFacts.
Context {E : Type}.
Variable id_of : E -> Z.

Lemma statement_available {A} (run : Table E -> A * Table E) (t : Table E) :
  outage t = None ->
  Repository.statement run t = (inr (fst (run t)), snd (run t)).
Proof.
  intros H. unfold Repository.statement. rewrite H.
  destruct (run t); reflexivity.
Qed.

Lemma statement_outage {A} (run : Table E -> A * Table E) (t : Table E) e :
  outage t = Some e ->
  Repository.statement run t = (inl e, t).
Proof.
  intros H. unfold Repository.statement. rewrite H. reflexivity.
Qed.

Lemma findOne_available (p : E -> bool) (t : Table E) :
  outage t = None ->
  Repository.findOne p t = (inr (find p (rows t)), t).
Proof. intros H. unfold Repository.findOne. now rewrite statement_available. Qed.

Lemma table_eta (t : Table E) : mkTable (rows t) (next_id t) (outage t) = t.
Proof. destruct t; reflexivity. Qed.

Lemma find_absent (p : E -> bool) (l : list E) :
  (forall r, In r l -> p r = false) -> find p l = None.
Proof.
  induction l as [|r l IH]; intros H; simpl; [reflexivity|].
  rewrite (H r (or_introl eq_refl)). apply IH. intros r' Hr'. apply H. now right.
Qed.

Lemma filter_keeps_all (p : E -> bool) (l : list E) :
  (forall r, In r l -> p r = true) -> filter p l = l.
Proof.
  induction l as [|r l IH]; intros H; simpl; [reflexivity|].
  rewrite (H r (or_introl eq_refl)). f_equal. apply IH.
  intros r' Hr'. apply H. now right.
Qed.

Lemma absent_find id0 t :
  absent id_of id0 t -> find (fun r => Z.eqb (id_of r) id0) (rows t) = None.
Proof.
  intros H. apply find_absent. intros r Hr. apply Z.eqb_neq. now apply H.
Qed.

Lemma delete_absent id0 t :
  outage t = None -> absent id_of id0 t ->
  Repository.delete id_of id0 t = (inr tt, t).
Proof.
  intros Hav Habs. unfold Repository.delete.
  rewrite statement_available by assumption. simpl.
  rewrite filter_keeps_all.
  - now rewrite table_eta.
  - intros r Hr. apply negb_true_iff, Z.eqb_neq. now apply Habs.
Qed.

Lemma preload_absent id0 merge t :
  outage t = None -> absent id_of id0 t ->
  Repository.preload id_of id0 merge t = (inr None, t).
Proof.
  intros Hav Habs. unfold Repository.preload.
  rewrite statement_available by assumption. simpl.
  now rewrite absent_find.
Qed.
End RepositoryFacts.

(** ** Users and authentication *)

Section LoginFacts.
Import Users Auth.
Variable comparePasswords : string -> string -> bool.
Variable sign : JwtPayload -> string.
Variable env_EXPIRESIN : option string.
Variable DEFAULT_EXPIRESIN : string.

Let by_email (e : string) : UserEntity -> bool :=
  fun u => String.eqb (email u) e.

Lemma findByLogin_unknown (credentials : LoginUserDTO) (t : UsersRepository) :
  outage t = None ->
  find (by_email (login_email credentials)) (rows t) = None ->
  findByLogin comparePasswords credentials t
  = (inl (HttpException "User not found" UNAUTHORIZED), t).
Proof.
  intros Hav Hnone. unfold findByLogin, bind.
  rewrite findOne_available by assumption.
  unfold by_email in Hnone. now rewrite Hnone.
Qed.

Lemma findByLogin_known (credentials : LoginUserDTO) (t : UsersRepository) u :
  outage t = None ->
  find (by_email (login_email credentials)) (rows t) = Some u ->
  findByLogin comparePasswords credentials t
  = (if comparePasswords (password u) (login_password credentials)
     then inr (toUserDTO u)
     else inl (HttpException "Invalid credentials" UNAUTHORIZED), t).
Proof.
  intros Hav Hsome. unfold findByLogin, bind.
  rewrite findOne_available by assumption.
  unfold by_email in Hsome. rewrite Hsome.
  now destruct (comparePasswords _ _).
Qed.

(** C1, as the code has it: on an available store, a login for an email
    that no user has fails with Unauthorized ('User not found'), as does a
    login whose password does not match the stored one ('Invalid
    credentials'); otherwise [findByLogin] returns the DTO of the user with
    that email and [login] a token for the user's uid. *)
Theorem findByLogin_outcomes (credentials : LoginUserDTO) (t : UsersRepository) :
  outage t = None ->
  match find (by_email (login_email credentials)) (rows t) with
  | None =>
      findByLogin comparePasswords credentials t
      = (inl (HttpException "User not found" UNAUTHORIZED), t)
  | Some u =>
      if comparePasswords (password u) (login_password credentials) then
        findByLogin comparePasswords credentials t = (inr (toUserDTO u), t)
        /\ login sign env_EXPIRESIN DEFAULT_EXPIRESIN comparePasswords credentials t
           = (inr {| accessToken := sign {| payload_uid := uid u |};
                     expiresIn := match env_EXPIRESIN with
                                  | Some e => JS.or_else e DEFAULT_EXPIRESIN
                                  | None => DEFAULT_EXPIRESIN
                                  end;
                     login_uid := uid u |}, t)
      else
        findByLogin comparePasswords credentials t
        = (inl (HttpException "Invalid credentials" UNAUTHORIZED), t)
  end.
Proof.
  intros Hav.
  destruct (find _ _) as [u|] eqn:Hfind.
  - pose proof (findByLogin_known credentials t u Hav Hfind) as Hk.
    destruct (comparePasswords _ _) eqn:Hcmp; [split|]; try exact Hk.
    unfold login, bind. rewrite Hk. reflexivity.
  - now apply findByLogin_unknown.
Qed.
End LoginFacts.

Lemma findByLogin_outcomes_witness :
  Users.findByLogin Samples.compare_sample
    (Users.mkLogin "alice@example.com" "secret") Samples.one_user
  = (inr (Users.toUserDTO Samples.alice), Samples.one_user)
  /\ Users.findByLogin Samples.compare_sample
       (Users.mkLogin "alice@example.com" "guess") Samples.one_user
     = (inl (HttpException "Invalid credentials" UNAUTHORIZED), Samples.one_user)
  /\ Users.findByLogin Samples.compare_sample
       (Users.mkLogin "carol@example.com" "secret") Samples.one_user
     = (inl (HttpException "User not found" UNAUTHORIZED), Samples.one_user).
Proof.
  split; [|split].
  - exact (proj1 (findByLogin_outcomes Samples.compare_sample Samples.sign_sample
                    None "60s" (Users.mkLogin "alice@example.com" "secret")
                    Samples.one_user eq_refl)).
  - exact (findByLogin_outcomes Samples.compare_sample Samples.sign_sample
             None "60s" (Users.mkLogin "alice@example.com" "guess")
             Samples.one_user eq_refl).
  - exact (findByLogin_outcomes Samples.compare_sample Samples.sign_sample
             None "60s" (Users.mkLogin "carol@example.com" "secret")
             Samples.one_user eq_refl).
Defined.

(** C1 as stated fails: a login for an email that no user has is not answered
    with NotFound. *)
Lemma findByLogin_unknown_email_not_NotFound :
  ~ fails_with NOT_FOUND
      (fst (Users.findByLogin Samples.compare_sample
              (Users.mkLogin "carol@example.com" "secret") Samples.one_user)).
Proof.
  intros [message H]. vm_compute in H. discriminate H.
Qed.

Section RegistrationFacts.
Import Users Auth.

Let by_email (e : string) : UserEntity -> bool :=
  fun u => String.eqb (email u) e.

Lemma createUser_outage fresh_uid userDTO (t : UsersRepository) e :
  outage t = Some e -> createUser fresh_uid userDTO t = (inl e, t).
Proof.
  intros H. unfold createUser, bind, Repository.findOne.
  now rewrite (statement_outage _ _ e H).
Qed.

Lemma createUser_duplicate fresh_uid userDTO (t : UsersRepository) u :
  outage t = None ->
  find (by_email (c_email userDTO)) (rows t) = Some u ->
  createUser fresh_uid userDTO t
  = (inl (HttpException "User already exists" BAD_REQUEST), t).
Proof.
  intros Hav Hfind. unfold createUser, bind.
  rewrite findOne_available by assumption.
  unfold by_email in Hfind. now rewrite Hfind.
Qed.

Lemma createUser_fresh fresh_uid userDTO (t : UsersRepository) :
  outage t = None ->
  find (by_email (c_email userDTO)) (rows t) = None ->
  createUser fresh_uid userDTO t
  = (inr (toUserDTO (new_user fresh_uid userDTO t)),
     mkTable (rows t ++ [new_user fresh_uid userDTO t]) (next_id t + 1) None).
Proof.
  intros Hav Hfind. unfold createUser, bind.
  rewrite findOne_available by assumption.
  unfold by_email in Hfind. rewrite Hfind.
  unfold Repository.save_new. rewrite statement_available by assumption.
  simpl. rewrite Hav. reflexivity.
Qed.


(** [register] never throws: it answers with the status that corresponds
    to the outcome of [createUser]. *)
Lemma register_outcome fresh_uid userDto (t : UsersRepository) :
  register fresh_uid userDto t
  = (inr match fst (createUser fresh_uid userDto t) with
         | inl e => rejected e
         | inr _ => registered
         end,
     snd (createUser fresh_uid userDto t)).
Proof.
  unfold register, try_catch, bind.
  destruct (createUser fresh_uid userDto t) as [[e|dto] t']; reflexivity.
Qed.

End RegistrationFacts.


(** The store after the two registrations holds Bob once. *)
Example register_twice_rows :
  map Users.email
      (rows (snd (Auth.register "uid-2" Samples.bob_again
                    (snd (Auth.register "uid-1" Samples.bob_input Samples.one_user)))))
  = ["alice@example.com"; "bob@example.com"].
Proof. reflexivity. Qed.

(** A failure of the data store is turned into a status as well. *)
Example register_during_outage :
  Auth.register "uid-1" Samples.bob_input
    (mkTable [Samples.alice] 2 (Some (QueryFailedError "Connection lost")))
  = (inr {| Auth.success := false; Auth.message := "Connection lost" |},
     mkTable [Samples.alice] 2 (Some (QueryFailedError "Connection lost"))).
Proof. reflexivity. Qed.

Section TokenFacts.
Import Users Auth.

Let by_uid (x : string) : UserEntity -> bool :=
  fun u => String.eqb (uid u) x.

Lemma findByPayload_available x (t : UsersRepository) :
  outage t = None ->
  findByPayload x t = (toUserDTO_of (find (by_uid x) (rows t)), t).
Proof.
  intros Hav. unfold findByPayload, findOne, bind.
  rewrite findOne_available by assumption. reflexivity.
Qed.

(** With a user of that uid in the store, [validateUser] returns the DTO of
    the first such user. *)
Lemma validateUser_known payload (t : UsersRepository) u :
  outage t = None ->
  find (by_uid (payload_uid payload)) (rows t) = Some u ->
  validateUser payload t = (inr (toUserDTO u), t).
Proof.
  intros Hav Hfind. unfold validateUser, bind.
  rewrite findByPayload_available by assumption.
  rewrite Hfind. reflexivity.
Qed.

(** Without one, the mapper is called on [null] inside [findByPayload]; the
    guard of [validateUser] is not reached. *)
Lemma validateUser_unknown payload (t : UsersRepository) :
  outage t = None ->
  find (by_uid (payload_uid payload)) (rows t) = None ->
  validateUser payload t
  = (inl (TypeError "Cannot read properties of null (reading 'id')"), t).
Proof.
  intros Hav Hfind. unfold validateUser, bind.
  rewrite findByPayload_available by assumption.
  rewrite Hfind. reflexivity.
Qed.
End TokenFacts.

(** C8 at a payload whose uid no stored user has: [validateUser] fails with
    the [TypeError] of [toUserDTO(null)], which is not the Unauthorized
    exception the claim and the method's documentation announce. *)
Theorem validateUser_unknown_uid_TypeError :
  Auth.validateUser (Auth.mkPayload "no-such-uid") Samples.one_user
  = (inl (TypeError "Cannot read properties of null (reading 'id')"), Samples.one_user)
  /\ ~ fails_with UNAUTHORIZED
         (fst (Auth.validateUser (Auth.mkPayload "no-such-uid") Samples.one_user)).
Proof.
  split; [reflexivity|].
  intros [message H]. vm_compute in H. discriminate H.
Qed.

Example validateUser_known_uid :
  Auth.validateUser (Auth.mkPayload "9b2f-alice") Samples.one_user
  = (inr (Users.toUserDTO Samples.alice), Samples.one_user).
Proof. reflexivity. Qed.

(** ** Ids that are not in the store *)

Section AbsentIds.
Variable SupplierFields CreateSupplierDto UpdateSupplierDto : Type.
Variable apply_update : UpdateSupplierDto -> SupplierFields -> SupplierFields.
Variable show_code : Z -> string.
Variable DocumentDTO : Type.
Variable toDocumentDTO : Documents.DocumentEntity -> DocumentDTO.

Lemma updateUser_absent id0 dto (t : Users.UsersRepository) :
  outage t = None -> absent Users.id id0 t ->
  Users.updateUser id0 dto t = (inl (HttpException "User not found" NOT_FOUND), t).
Proof.
  intros Hav Habs. unfold Users.updateUser, bind.
  now rewrite preload_absent.
Qed.

Lemma deleteUser_absent id0 (t : Users.UsersRepository) :
  outage t = None -> absent Users.id id0 t ->
  Users.deleteUser id0 t = (inr tt, t).
Proof.
  intros Hav Habs. unfold Users.deleteUser, try_catch.
  now rewrite delete_absent.
Qed.

Lemma getUser_absent id0 (t : Users.UsersRepository) :
  outage t = None -> absent Users.id id0 t ->
  Users.getUser id0 t = (inl (HttpException "User not found" BAD_REQUEST), t).
Proof.
  intros Hav Habs. unfold Users.getUser, bind.
  rewrite findOne_available by assumption.
  now rewrite (absent_find Users.id).
Qed.

Lemma supplier_update_absent id0 dto (t : Suppliers.SupplierRepository SupplierFields) :
  outage t = None -> absent Suppliers.id id0 t ->
  Suppliers.update SupplierFields UpdateSupplierDto apply_update id0 dto t
  = (inl (NotFoundException "Supplier not found"), t).
Proof.
  intros Hav Habs. unfold Suppliers.update, bind.
  now rewrite preload_absent.
Qed.

Lemma supplier_remove_absent id0 (t : Suppliers.SupplierRepository SupplierFields) :
  outage t = None -> absent Suppliers.id id0 t ->
  Suppliers.remove SupplierFields id0 t = (inr tt, t).
Proof. intros Hav Habs. unfold Suppliers.remove. now apply delete_absent. Qed.

Lemma supplier_findOne_absent id0 (t : Suppliers.SupplierRepository SupplierFields) :
  outage t = None -> absent Suppliers.id id0 t ->
  Suppliers.findOne SupplierFields id0 t = (inr None, t).
Proof.
  intros Hav Habs. unfold Suppliers.findOne.
  rewrite findOne_available by assumption.
  now rewrite (absent_find Suppliers.id).
Qed.

Lemma supplier_findByCode_absent id0 (t : Suppliers.SupplierRepository SupplierFields) :
  outage t = None -> absent Suppliers.id id0 t ->
  fails_with NOT_FOUND (fst (Suppliers.findByCode SupplierFields show_code id0 t)).
Proof.
  intros Hav Habs. unfold Suppliers.findByCode, bind.
  rewrite findOne_available by assumption.
  rewrite (absent_find Suppliers.id) by assumption.
  eexists. reflexivity.
Qed.

Lemma document_findById_absent id0 (t : Documents.DocumentsRepository) :
  outage t = None -> absent Documents.id id0 t ->
  Documents.findById DocumentDTO toDocumentDTO id0 t
  = (inl (HttpException "Document not found" NOT_FOUND), t).
Proof.
  intros Hav Habs. unfold Documents.findById, bind.
  rewrite findOne_available by assumption.
  now rewrite (absent_find Documents.id).
Qed.

(** C6, as the code has it: for an id that no row of the (available) store
    carries, the updates of the user and supplier services and the document
    lookup [findById] fail with NotFound, as does the suppliers'
    [findByCode]; the deletions of both services succeed and leave the store
    as it was; the suppliers' [findOne] resolves to [null]; and the users'
    [getUser] fails with the message 'User not found'. *)
Theorem absent_id_outcomes id0 userDTO supplierDto
        (users : Users.UsersRepository)
        (suppliers : Suppliers.SupplierRepository SupplierFields)
        (documents : Documents.DocumentsRepository) :
  outage users = None -> absent Users.id id0 users ->
  outage suppliers = None -> absent Suppliers.id id0 suppliers ->
  outage documents = None -> absent Documents.id id0 documents ->
  Users.updateUser id0 userDTO users
  = (inl (HttpException "User not found" NOT_FOUND), users)
  /\ Suppliers.update SupplierFields UpdateSupplierDto apply_update id0 supplierDto suppliers
     = (inl (HttpException "Supplier not found" NOT_FOUND), suppliers)
  /\ Documents.findById DocumentDTO toDocumentDTO id0 documents
     = (inl (HttpException "Document not found" NOT_FOUND), documents)
  /\ fails_with NOT_FOUND (fst (Suppliers.findByCode SupplierFields show_code id0 suppliers))
  /\ Users.deleteUser id0 users = (inr tt, users)
  /\ Suppliers.remove SupplierFields id0 suppliers = (inr tt, suppliers)
  /\ Suppliers.findOne SupplierFields id0 suppliers = (inr None, suppliers)
  /\ (exists status,
        Users.getUser id0 users = (inl (HttpException "User not found" status), users)).
Proof.
  intros Hu Au Hs As Hd Ad.
  repeat split.
  - now apply updateUser_absent.
  - now apply supplier_update_absent.
  - now apply document_findById_absent.
  - now apply supplier_findByCode_absent.
  - now apply deleteUser_absent.
  - now apply supplier_remove_absent.
  - now apply supplier_findOne_absent.
  - exists BAD_REQUEST. now apply getUser_absent.
Qed.
End AbsentIds.

Lemma absent_id_outcomes_witness :
  Users.deleteUser 7 Samples.one_user = (inr tt, Samples.one_user)
  /\ Suppliers.remove string 7 Samples.no_suppliers = (inr tt, Samples.no_suppliers)
  /\ Users.updateUser 7 Samples.bob_input Samples.one_user
     = (inl (HttpException "User not found" NOT_FOUND), Samples.one_user).
Proof.
  assert (Au : absent Users.id 7 Samples.one_user).
  { intros r [Hr|[]]. subst r. simpl. lia. }
  assert (As : absent Suppliers.id 7 Samples.no_suppliers) by (intros r []).
  assert (Ad : absent Documents.id 7 Samples.two_documents).
  { intros r [Hr|[Hr|[]]]; subst r; simpl; lia. }
  pose proof (absent_id_outcomes string string (fun (d : string) (_ : string) => d)
                (fun _ => "7") unit (fun _ => tt) 7 Samples.bob_input "ACME"
                Samples.one_user Samples.no_suppliers Samples.two_documents
                eq_refl Au eq_refl As eq_refl Ad) as H.
  split; [exact (proj1 (proj2 (proj2 (proj2 (proj2 H)))))|].
  split; [exact (proj1 (proj2 (proj2 (proj2 (proj2 (proj2 H))))))|].
  exact (proj1 H).
Defined.

(** C6 as stated fails: removing a supplier id that is not in the store is
    not answered with NotFound; it succeeds. *)
Lemma supplier_remove_absent_not_NotFound :
  Suppliers.remove string 7 Samples.no_suppliers = (inr tt, Samples.no_suppliers)
  /\ ~ fails_with NOT_FOUND (fst (Suppliers.remove string 7 Samples.no_suppliers)).
Proof.
  split; [reflexivity|].
  intros [message H]. vm_compute in H. discriminate H.
Qed.

(** ** The national id (CPF) *)

Section CpfFacts.
Import Users.

Lemma chars_str (l : list ascii) : JS.chars (JS.str l) = l.
Proof. apply list_ascii_of_string_of_list_ascii. Qed.

Lemma str_chars (s : string) : JS.str (JS.chars s) = s.
Proof. apply string_of_list_ascii_of_string. Qed.

Lemma forallb_filter {A} (p : A -> bool) (l : list A) :
  forallb p (filter p l) = true.
Proof.
  induction l as [|a l IH]; simpl; [reflexivity|].
  destruct (p a) eqn:Ha; simpl; [rewrite Ha|]; exact IH.
Qed.

Lemma replace_non_digits_digits (s : string) :
  forallb JS.isDigit (JS.chars (JS.replace_non_digits s)) = true.
Proof. unfold JS.replace_non_digits. rewrite chars_str. apply forallb_filter. Qed.

Lemma filter_all {A} (p : A -> bool) (l : list A) :
  forallb p l = true -> filter p l = l.
Proof.
  intros H. apply filter_keeps_all. now apply forallb_forall.
Qed.

(** Eleven digits are rendered in the canonical form, and the digits can be
    read back from it. *)
Lemma mask_eleven_digits (l : list ascii) :
  List.length l = 11%nat -> forallb JS.isDigit l = true ->
  canonical_cpf (JS.str (mask_first l)) = true
  /\ filter JS.isDigit (mask_first l) = l.
Proof.
  intros Hlen Hdig.
  do 11 (destruct l as [|? l]; [discriminate Hlen|]).
  destruct l; [|discriminate Hlen].
  unfold mask_first, mask_here.
  replace (firstn 11 _) with [a; a0; a1; a2; a3; a4; a5; a6; a7; a8; a9] by reflexivity.
  rewrite Hdig. cbn [List.length Nat.leb andb firstn skipn app].
  unfold canonical_cpf. rewrite chars_str.
  simpl in Hdig. repeat (apply andb_prop in Hdig; destruct Hdig as [? Hdig]).
  split.
  - simpl. repeat (match goal with H : JS.isDigit _ = true |- _ => rewrite H; clear H end).
    reflexivity.
  - cbn [filter].
    repeat (match goal with H : JS.isDigit _ = true |- _ => rewrite H; clear H end).
    reflexivity.
Qed.

Lemma toUserDTO_masks (entity : UserEntity) :
  List.length (JS.chars (JS.replace_non_digits (cpf entity))) = 11%nat ->
  canonical_cpf (dto_cpf (toUserDTO entity)) = true
  /\ JS.replace_non_digits (dto_cpf (toUserDTO entity))
     = JS.replace_non_digits (cpf entity).
Proof.
  intros Hlen. simpl. unfold mask_cpf.
  destruct (mask_eleven_digits _ Hlen (replace_non_digits_digits (cpf entity)))
    as [Hcan Hback].
  split; [exact Hcan|].
  unfold JS.replace_non_digits at 1. rewrite chars_str, Hback. apply str_chars.
Qed.

Lemma updateUser_present id0 userDTO (t : UsersRepository) u0 :
  outage t = None ->
  find (fun u => Z.eqb (id u) id0) (rows t) = Some u0 ->
  let u := mkUser id0 (uid u0) (c_name userDTO) (c_email userDTO) (c_password userDTO)
                  (JS.replace_non_digits (c_cpf userDTO)) in
  updateUser id0 userDTO t
  = (inr (toUserDTO u),
     mkTable (map (fun r => if Z.eqb (id r) id0 then u else r) (rows t))
             (next_id t) None)
  /\ In u (map (fun r => if Z.eqb (id r) id0 then u else r) (rows t)).
Proof.
  intros Hav Hfind u. split.
  - unfold updateUser, bind, Repository.preload.
    rewrite statement_available by assumption. simpl. rewrite Hfind. simpl.
    unfold Repository.save. rewrite statement_available by assumption.
    simpl. rewrite Hav. reflexivity.
  - apply find_some in Hfind. destruct Hfind as [Hin Hid].
    apply in_map_iff. exists u0. split; [|exact Hin]. now rewrite Hid.
Qed.

(** C7, as the code has it: whatever punctuation the input carries, create
    and update store the CPF with every non-digit removed; and the DTO of a
    stored user whose CPF has exactly eleven digits renders it as
    000.000.000-00 with the same digits. *)
Theorem cpf_stored_digits_rendered_masked fresh_uid id0 userDTO (t : UsersRepository) :
  outage t = None ->
  let stored := JS.replace_non_digits (c_cpf userDTO) in
  stored = JS.str (filter JS.isDigit (JS.chars (c_cpf userDTO)))
  /\ forallb JS.isDigit (JS.chars stored) = true
  /\ (find (fun u => String.eqb (email u) (c_email userDTO)) (rows t) = None ->
      exists u t', createUser fresh_uid userDTO t = (inr (toUserDTO u), t')
                   /\ In u (rows t') /\ cpf u = stored)
  /\ (forall u0, find (fun u => Z.eqb (id u) id0) (rows t) = Some u0 ->
      exists u t', updateUser id0 userDTO t = (inr (toUserDTO u), t')
                   /\ In u (rows t') /\ cpf u = stored)
  /\ (forall entity : UserEntity,
        List.length (JS.chars (JS.replace_non_digits (cpf entity))) = 11%nat ->
        canonical_cpf (dto_cpf (toUserDTO entity)) = true
        /\ JS.replace_non_digits (dto_cpf (toUserDTO entity))
           = JS.replace_non_digits (cpf entity)).
Proof.
  intros Hav stored. split; [reflexivity|]. split; [apply replace_non_digits_digits|].
  split; [|split].
  - intros Hfind. eexists. eexists. split; [now apply createUser_fresh|].
    split; [|reflexivity]. simpl. apply in_or_app. right. now left.
  - intros u0 Hfind.
    destruct (updateUser_present id0 userDTO t u0 Hav Hfind) as [Hrun Hin].
    eexists. eexists. split; [exact Hrun|]. split; [exact Hin|reflexivity].
  - exact toUserDTO_masks.
Qed.
End CpfFacts.

Lemma cpf_stored_digits_rendered_masked_witness :
  (exists u t',
     Users.createUser "uid-1" Samples.bob_input Samples.one_user
     = (inr (Users.toUserDTO u), t')
     /\ In u (rows t') /\ Users.cpf u = "98765432100")
  /\ canonical_cpf (Users.dto_cpf (Users.toUserDTO Samples.alice)) = true.
Proof.
  pose proof (cpf_stored_digits_rendered_masked "uid-1" 1 Samples.bob_input
                Samples.one_user eq_refl) as H.
  split.
  - exact (proj1 (proj2 (proj2 H)) eq_refl).
  - exact (proj1 (proj2 (proj2 (proj2 (proj2 H))) Samples.alice eq_refl)).
Defined.

Example bob_rendered :
  option_map Users.dto_cpf
    (match fst (Users.createUser "uid-1" Samples.bob_input Samples.one_user) with
     | inr dto => Some dto
     | inl _ => None
     end) = Some "987.654.321-00".
Proof. reflexivity. Qed.

(** C7 as stated fails: a CPF input with three digits is stored as those
    digits and rendered as them, not in the form 000.000.000-00. *)
Lemma short_cpf_not_masked :
  match fst (Users.createUser "uid-3" Samples.eve_input Samples.no_users) with
  | inr dto => Users.dto_cpf dto = "123" /\ canonical_cpf (Users.dto_cpf dto) = false
  | inl _ => False
  end.
Proof. vm_compute. split; reflexivity. Qed.

(** ** The document filter *)

Section LikeFacts.

Lemma chars_app (a b : string) : JS.chars (a ++ b) = (JS.chars a ++ JS.chars b)%list.
Proof.
  induction a as [|c a IH]; simpl; [reflexivity|].
  unfold JS.chars in *. simpl. now rewrite IH.
Qed.



Lemma matches_run (p : list SQL.token) (s : list ascii) :
  SQL.matches (SQL.AnyRun :: p) s
  = SQL.matches p s
    || match s with
       | [] => false
       | _ :: s' => SQL.matches (SQL.AnyRun :: p) s'
       end.
Proof. destruct s; reflexivity. Qed.

Lemma matches_only_run (s : list ascii) : SQL.matches [SQL.AnyRun] s = true.
Proof.
  induction s as [|c s IH]; [reflexivity|].
  rewrite matches_run. rewrite IH. apply orb_true_r.
Qed.



End LikeFacts.

Section FilterFacts.
Import Documents.
Variable DocumentDTO : Type.
Variable toDocumentDTO : DocumentEntity -> DocumentDTO.

Lemma findWithFilters_available (filters : DocumentFilter) (t : DocumentsRepository) :
  outage t = None ->
  findWithFilters DocumentDTO toDocumentDTO filters t
  = (inr (map toDocumentDTO (filter (satisfies (query_of filters)) (rows t))), t).
Proof.
  intros Hav. unfold findWithFilters, bind, getMany.
  rewrite statement_available by assumption. reflexivity.
Qed.



(** C10: an empty string for the file type or the filename and a 0 for the
    owner id or the id are treated exactly as an absent filter; alone, each
    of them returns the full document set of an available store. *)
Theorem falsy_filter_is_absent ft uid i fname d (t : DocumentsRepository) :
  outage t = None ->
  findWithFilters DocumentDTO toDocumentDTO (mkFilter (Some EmptyString) uid i fname d) t
  = findWithFilters DocumentDTO toDocumentDTO (mkFilter None uid i fname d) t
  /\ findWithFilters DocumentDTO toDocumentDTO (mkFilter ft (Some 0%Z) i fname d) t
     = findWithFilters DocumentDTO toDocumentDTO (mkFilter ft None i fname d) t
  /\ findWithFilters DocumentDTO toDocumentDTO (mkFilter ft uid (Some 0%Z) fname d) t
     = findWithFilters DocumentDTO toDocumentDTO (mkFilter ft uid None fname d) t
  /\ findWithFilters DocumentDTO toDocumentDTO (mkFilter ft uid i (Some EmptyString) d) t
     = findWithFilters DocumentDTO toDocumentDTO (mkFilter ft uid i None d) t
  /\ (forall falsy,
        In falsy [mkFilter (Some EmptyString) None None None None;
                  mkFilter None (Some 0%Z) None None None;
                  mkFilter None None (Some 0%Z) None None;
                  mkFilter None None None (Some EmptyString) None] ->
        findWithFilters DocumentDTO toDocumentDTO falsy t
        = (inr (map toDocumentDTO (rows t)), t)).
Proof.
  intros Hav. repeat split; try reflexivity.
  intros falsy Hin. rewrite findWithFilters_available by assumption.
  do 3 f_equal. apply filter_keeps_all. intros doc _.
  simpl in Hin. destruct Hin as [<-|[<-|[<-|[<-|[]]]]]; reflexivity.
Qed.
End FilterFacts.


Lemma falsy_filter_is_absent_witness :
  Documents.findWithFilters _ Documents.filename
    (Documents.mkFilter None None (Some 0%Z) None None) Samples.two_documents
  = (inr ["Invoice_2024.pdf"; "report.pdf"], Samples.two_documents).
Proof.
  refine (proj2 (proj2 (proj2 (proj2
            (falsy_filter_is_absent string Documents.filename None None None None None
               Samples.two_documents eq_refl)))) _ _).
  simpl. right. right. left. reflexivity.
Defined.


(** The pattern characters are not taken literally by the query. *)
Example underscore_is_a_pattern :
  fst (Documents.findWithFilters _ Documents.filename
         (Documents.mkFilter None None None (Some "t_p") None) Samples.two_documents)
  = inr ["report.pdf"]
  /\ filename_contains "t_p" Samples.report = false.
Proof. split; reflexivity. Qed.

(** ** The entry identifier *)

Section EntryIdFacts.
Import ProductEntryService.

Lemma length_str (l : list ascii) : String.length (JS.str l) = List.length l.
Proof. induction l as [|c l IH]; simpl; [reflexivity|]. now rewrite <- IH. Qed.

Lemma chars_join (ws : list string) : JS.chars (JS.join ws) = flat_map JS.chars ws.
Proof.
  induction ws as [|w ws IH]; [reflexivity|].
  destruct ws as [|w' ws].
  - simpl. now rewrite app_nil_r.
  - change (JS.join (w :: w' :: ws)) with (w ++ EmptyString ++ JS.join (w' :: ws)).
    rewrite chars_app. change (EmptyString ++ JS.join (w' :: ws)) with (JS.join (w' :: ws)).
    rewrite IH. reflexivity.
Qed.

Lemma in_firstn {A} (k : nat) (l : list A) (x : A) : In x (firstn k l) -> In x l.
Proof.
  revert l. induction k as [|k IH]; intros [|a l]; simpl; try tauto.
  intros [H|H]; [now left | right; now apply IH].
Qed.

(** The initials: one character for each word. *)
Lemma initials_length (ws : list string) :
  List.length (flat_map JS.chars (map JS.charAt0 ws))
  = List.length (filter (fun w => negb (String.eqb w EmptyString)) ws).
Proof.
  induction ws as [|w ws IH]; [reflexivity|].
  destruct w as [|c w]; simpl; [exact IH|]. now rewrite IH.
Qed.

Lemma initials_from_words (ws : list string) (x : ascii) :
  In x (flat_map JS.chars (map JS.charAt0 ws)) ->
  exists w, In w (filter (fun w => negb (String.eqb w EmptyString)) ws) /\ first_char w = Some x.
Proof.
  induction ws as [|w ws IH]; [intros []|].
  destruct w as [|c w]; simpl.
  - exact IH.
  - intros [<-|H].
    + exists (String c w). split; [now left | reflexivity].
    + destruct (IH H) as [w0 [Hin Hf]]. exists w0. split; [now right | exact Hf].
Qed.

Lemma four_digits_below (n : N) : (n < 9999)%N -> four_digits n = true.
Proof.
  intros Hn.
  assert (Hall : forallb four_digits (map N.of_nat (seq 0 (N.to_nat 9999))) = true)
    by (vm_compute; reflexivity).
  rewrite forallb_forall in Hall. apply Hall.
  apply in_map_iff. exists (N.to_nat n). split; [apply N2Nat.id|].
  apply in_seq. lia.
Qed.

Lemma upperChar_alphanumeric (c : ascii) :
  alphanumeric c = true -> upper_or_digit (JS.upperChar c) = true.
Proof. destruct c as [[] [] [] [] [] [] [] []]; vm_compute; congruence. Qed.

Lemma digit_upper_or_digit (c : ascii) : JS.isDigit c = true -> upper_or_digit c = true.
Proof. intros H. unfold upper_or_digit. rewrite H. apply orb_true_r. Qed.

Variable randomNum : N.
Variable shuffle : list ascii -> list ascii.
Hypothesis randomNum_range : (randomNum < 9999)%N.
Hypothesis shuffle_rearranges : forall l, Permutation l (shuffle l).

(** The characters that are shuffled. *)
Let combined (name : string) : list ascii :=
  (map JS.upperChar (flat_map JS.chars (map JS.charAt0 (JS.split " " name)))
   ++ JS.chars (JS.padStart 4 "0" (JS.toString randomNum)))%list.

Lemma generateEntryId_chars (name : string) :
  JS.chars (generateEntryId randomNum shuffle name) = firstn 6 (shuffle (combined name)).
Proof.
  unfold generateEntryId, JS.substring0. rewrite !chars_str.
  rewrite chars_app. unfold JS.toUpperCase. rewrite chars_str, chars_join.
  reflexivity.
Qed.

Lemma combined_length (name : string) :
  List.length (combined name) = (List.length (words name) + 4)%nat.
Proof.
  unfold combined. rewrite length_app, length_map, initials_length.
  pose proof (four_digits_below randomNum randomNum_range) as H4.
  unfold four_digits in H4. apply andb_prop in H4. destruct H4 as [H4 _].
  apply Nat.eqb_eq in H4. rewrite H4. reflexivity.
Qed.

Lemma combined_origin (name : string) (c : ascii) :
  In c (combined name) ->
  JS.isDigit c = true
  \/ exists w x, In w (words name) /\ first_char w = Some x /\ c = JS.upperChar x.
Proof.
  unfold combined. intros H. apply in_app_or in H. destruct H as [H|H].
  - right. apply in_map_iff in H. destruct H as [x [<- Hx]].
    destruct (initials_from_words _ _ Hx) as [w [Hw Hf]].
    exists w, x. repeat split; assumption.
  - left. pose proof (four_digits_below randomNum randomNum_range) as H4.
    unfold four_digits in H4. apply andb_prop in H4. destruct H4 as [_ H4].
    rewrite forallb_forall in H4. now apply H4.
Qed.

(** What [generateEntryId] does return: min(6, k + 4) characters for a name
    of k words, hence exactly 6 from two words on; each
    character is a digit of the padded random number or the upper-cased first
    character of a word, so that all are uppercase letters or digits when
    every word starts with a letter or a digit; together with the characters
    the truncation drops, they are a rearrangement of the upper-cased
    initials followed by the four digits of the random number. *)
Theorem generateEntryId_shape (name : string) :
  let result := generateEntryId randomNum shuffle name in
  String.length result = Nat.min 6 (List.length (words name) + 4)
  /\ (2 <= List.length (words name) -> String.length result = 6)%nat
  /\ (forall c, In c (JS.chars result) ->
        JS.isDigit c = true
        \/ exists w x, In w (words name) /\ first_char w = Some x /\ c = JS.upperChar x)
  /\ ((forall w x, In w (words name) -> first_char w = Some x -> alphanumeric x = true) ->
      forallb upper_or_digit (JS.chars result) = true)
  /\ (exists dropped, Permutation (JS.chars result ++ dropped) (combined name)).
Proof.
  intros result.
  assert (Hlen : String.length result = Nat.min 6 (List.length (words name) + 4)).
  { rewrite <- (str_chars result), length_str. unfold result.
    rewrite generateEntryId_chars, length_firstn.
    rewrite <- (Permutation_length (shuffle_rearranges (combined name))).
    now rewrite combined_length. }
  assert (Horigin : forall c, In c (JS.chars result) ->
            JS.isDigit c = true
            \/ exists w x, In w (words name) /\ first_char w = Some x
                           /\ c = JS.upperChar x).
  { intros c Hc. unfold result in Hc. rewrite generateEntryId_chars in Hc.
    apply in_firstn in Hc.
    apply (Permutation_in c (Permutation_sym (shuffle_rearranges (combined name)))) in Hc.
    now apply combined_origin. }
  split; [exact Hlen|]. split; [intros H2; rewrite Hlen; lia|].
  split; [exact Horigin|]. split.
  - intros Hwords. apply forallb_forall. intros c Hc.
    destruct (Horigin c Hc) as [Hd|[w [x [Hw [Hf ->]]]]].
    + now apply digit_upper_or_digit.
    + apply upperChar_alphanumeric. now apply (Hwords w x).
  - exists (skipn 6 (shuffle (combined name))). unfold result.
    rewrite generateEntryId_chars, firstn_skipn.
    apply Permutation_sym, shuffle_rearranges.
Qed.
End EntryIdFacts.

Lemma generateEntryId_shape_witness :
  String.length (ProductEntryService.generateEntryId 42 (@rev ascii) "caixa de papel") = 6%nat
  /\ forallb upper_or_digit
       (JS.chars (ProductEntryService.generateEntryId 42 (@rev ascii) "caixa de papel"))
     = true.
Proof.
  pose proof (generateEntryId_shape 42 (@rev ascii) eq_refl
                (@Permutation_rev ascii) "caixa de papel") as H.
  cbv zeta in H. split.
  - apply (proj1 (proj2 H)). vm_compute. repeat constructor.
  - apply (proj1 (proj2 (proj2 (proj2 H)))).
    intros w x Hw Hx. vm_compute in Hw.
    destruct Hw as [<-|[<-|[<-|[]]]]; injection Hx as <-; reflexivity.
Defined.

Example generateEntryId_sample :
  ProductEntryService.generateEntryId 42 (@rev ascii) "caixa de papel" = "2400PD".
Proof. reflexivity. Qed.

(** C2 at a name of one word: [generateEntryId] returns five characters, the
    initial and the four digits, where the claim and the method's own
    documentation announce six. *)
Theorem generateEntryId_one_word :
  ProductEntryService.generateEntryId 7 (fun l => l) "Parafuso" = "P0007"
  /\ String.length (ProductEntryService.generateEntryId 7 (fun l => l) "Parafuso")
     <> 6%nat.
Proof. split; [reflexivity | vm_compute; discriminate]. Qed.

(** No random number and no shuffle make up for the missing character. *)
Example generateEntryId_one_word_always (randomNum : N) (shuffle : list ascii -> list ascii) :
  (randomNum < 9999)%N ->
  (forall l, Permutation l (shuffle l)) ->
  String.length (ProductEntryService.generateEntryId randomNum shuffle "Parafuso") = 5%nat.
Proof.
  intros Hr Hs. exact (proj1 (generateEntryId_shape randomNum shuffle Hr Hs "Parafuso")).
Qed.

(** ** The product-entry form: the attached file *)

Section UploadFacts.
Import ProductEntryComponent.
Variable Number_toString : float -> string.

Lemma onFileSelected_upload (files : list File) (c : Component) :
  uploadFile (onFileSelected files c) = uploadFile c.
Proof.
  unfold onFileSelected. destruct files as [|file rest]; [reflexivity|].
  destruct (negb _); [reflexivity|]. now destruct (_ <? _)%N.
Qed.

Lemma onFileSelected_reading (files : list File) (c : Component) :
  reading (onFileSelected files c) = reading c
  \/ exists file, acceptable file
                  /\ reading (onFileSelected files c) = (reading c ++ [file])%list.
Proof.
  unfold onFileSelected. destruct files as [|file rest]; [now left|].
  destruct (String.eqb (type file) "application/pdf") eqn:Htype; simpl; [|now left].
  destruct (MAX_FILE_SIZE <? size file)%N eqn:Hsize; simpl; [now left|].
  right. exists file. split; [|reflexivity]. split.
  - now apply String.eqb_eq.
  - apply N.ltb_ge in Hsize. exact Hsize.
Qed.

(** Every read in progress is one of an acceptable file. *)
Lemma step_reading (c : Component) (ev : Event) :
  Forall acceptable (reading c) -> Forall acceptable (reading (step Number_toString c ev)).
Proof.
  intros H. destruct ev; simpl; try exact H.
  - destruct (onFileSelected_reading files c) as [->|[file [Hok ->]]]; [exact H|].
    apply Forall_app. split; [exact H|]. now constructor.
  - unfold reader_onload. destruct (reading c) as [|file rest] eqn:Hr.
    + rewrite Hr. constructor.
    + simpl. now inversion H.
  - unfold onSubmit. destruct (negb _); [exact H|].
    now destruct (uploadFile c).
Qed.

Lemma reading_acceptable (evs : list Event) : Forall acceptable (reading (run Number_toString evs)).
Proof.
  unfold ProductEntryComponent.run.
  assert (Hgen : forall c, Forall acceptable (reading c) ->
                           Forall acceptable (reading (fold_left (step Number_toString) evs c))).
  { induction evs as [|ev evs IH]; intros c Hc; [exact Hc|].
    simpl. apply IH. now apply step_reading. }
  apply Hgen. constructor.
Qed.

(** C9: [onFileSelected] itself leaves [uploadFile] as it is; it starts a
    read only for a first file of type application/pdf and of at most
    30 * 1024 bytes; a first file of another type is answered with an alert,
    a larger PDF sets [file_size_error], and neither starts a read.  In any
    run of the component, a step that sets [uploadFile] is the completion of
    the read of such an acceptable file. *)
Theorem uploadFile_only_small_pdf (evs : list Event) (ev : Event) (files : list File) :
  let c := run Number_toString evs in
  uploadFile (onFileSelected files c) = uploadFile c
  /\ (forall file rest, files = file :: rest ->
        type file <> "application/pdf" ->
        alerts (onFileSelected files c)
        = (alerts c ++ ["Apenas arquivos PDF são permitidos!"])%list
        /\ reading (onFileSelected files c) = reading c)
  /\ (forall file rest, files = file :: rest ->
        type file = "application/pdf" -> (30 * 1024 < size file)%N ->
        file_size_error (onFileSelected files c) = true
        /\ reading (onFileSelected files c) = reading c)
  /\ (forall file rest, files = file :: rest ->
        type file = "application/pdf" -> (size file <= 30 * 1024)%N ->
        file_size_error (onFileSelected files c) = false
        /\ reading (onFileSelected files c) = (reading c ++ [file])%list
        /\ (reading c = [] ->
            uploadFile (reader_onload (onFileSelected files c)) = Some (upload_of file)))
  /\ (forall u, uploadFile (step Number_toString c ev) = Some u ->
        uploadFile (step Number_toString c ev) <> uploadFile c ->
        exists file, acceptable file /\ u = upload_of file).
Proof.
  intros c. split; [apply onFileSelected_upload|].
  split; [|split; [|split]].
  - intros file rest -> Htype. unfold onFileSelected.
    apply String.eqb_neq in Htype. rewrite Htype. now split.
  - intros file rest -> Htype Hsize. unfold onFileSelected.
    apply String.eqb_eq in Htype. rewrite Htype. simpl.
    apply N.ltb_lt in Hsize. unfold MAX_FILE_SIZE. rewrite Hsize. now split.
  - intros file rest -> Htype Hsize. unfold onFileSelected.
    apply String.eqb_eq in Htype. rewrite Htype. simpl.
    apply N.ltb_ge in Hsize. unfold MAX_FILE_SIZE. rewrite Hsize.
    split; [reflexivity|]. split; [reflexivity|].
    intros Hr. unfold reader_onload. simpl. rewrite Hr. reflexivity.
  - intros u Hset Hnew.
    pose proof (reading_acceptable evs) as Hok. fold c in Hok.
    destruct ev; simpl in Hset, Hnew; try (now contradiction Hnew).
    + now rewrite onFileSelected_upload in Hnew.
    + unfold reader_onload in Hset, Hnew.
      destruct (reading c) as [|file rest]; [now contradiction Hnew|].
      simpl in Hset. injection Hset as <-. exists file.
      split; [now inversion Hok | reflexivity].
    + unfold onSubmit in Hnew. destruct (negb _); [now contradiction Hnew|].
      destruct (uploadFile c); now contradiction Hnew.
Qed.
End UploadFacts.

Lemma uploadFile_only_small_pdf_witness :
  ProductEntryComponent.uploadFile
    (ProductEntryComponent.reader_onload
       (ProductEntryComponent.onFileSelected [Samples.small_pdf]
          (ProductEntryComponent.run Samples.show_sample [])))
  = Some (ProductEntryComponent.mkUpload "nf.pdf" (Some "JVBERi0xLjQK"))
  /\ ProductEntryComponent.alerts
       (ProductEntryComponent.onFileSelected [Samples.picture]
          (ProductEntryComponent.run Samples.show_sample []))
     = ["Apenas arquivos PDF são permitidos!"]
  /\ ProductEntryComponent.file_size_error
       (ProductEntryComponent.onFileSelected [Samples.big_pdf]
          (ProductEntryComponent.run Samples.show_sample []))
     = true.
Proof.
  split; [|split].
  - exact (proj2 (proj2 (proj1 (proj2 (proj2 (proj2
             (uploadFile_only_small_pdf Samples.show_sample []
                ProductEntryComponent.ReaderLoaded [Samples.small_pdf]))))
             Samples.small_pdf [] eq_refl eq_refl
             (fun H : ((2048 ?= 30 * 1024)%N = Gt) => ltac:(discriminate H))))
           eq_refl).
  - refine (proj1 (proj1 (proj2
             (uploadFile_only_small_pdf Samples.show_sample []
                ProductEntryComponent.ReaderLoaded [Samples.picture]))
             Samples.picture [] eq_refl _)).
    discriminate.
  - exact (proj1 (proj1 (proj2 (proj2
             (uploadFile_only_small_pdf Samples.show_sample []
                ProductEntryComponent.ReaderLoaded [Samples.big_pdf])))
             Samples.big_pdf [] eq_refl eq_refl eq_refl)).
Defined.

(** A picture and an oversized PDF leave the pending upload as it was. *)
Example rejected_files_keep_upload :
  let loaded :=
    ProductEntryComponent.run Samples.show_sample
      [ProductEntryComponent.FileSelected [Samples.small_pdf];
       ProductEntryComponent.ReaderLoaded] in
  ProductEntryComponent.uploadFile
    (ProductEntryComponent.run Samples.show_sample
       [ProductEntryComponent.FileSelected [Samples.small_pdf];
        ProductEntryComponent.ReaderLoaded;
        ProductEntryComponent.FileSelected [Samples.picture];
        ProductEntryComponent.ReaderLoaded;
        ProductEntryComponent.FileSelected [Samples.big_pdf];
        ProductEntryComponent.ReaderLoaded])
  = ProductEntryComponent.uploadFile loaded
  /\ ProductEntryComponent.uploadFile loaded = Some (upload_of Samples.small_pdf).
Proof. split; reflexivity. Qed.

(** ** The product-entry form: the total *)

Section TotalFacts.
Import ProductEntryComponent.
Local Open Scope float_scope.
Variable Number_toString : float -> string.

(** [toFixed(2)] rounds to the nearest hundredth, upwards on a tie: with
    [n] the hundredths of [m * 2^e], [n - 1/2 <= 100 * m * 2^e < n + 1/2]. *)
Lemma hundredths_nearest (m : positive) (e : Z) :
  let n := Number.hundredths m e in
  if (0 <=? e)%Z then n = (100 * Z.pos m * 2 ^ e)%Z
  else (2 * n * 2 ^ (- e) - 2 ^ (- e) <= 200 * Z.pos m
        < 2 * n * 2 ^ (- e) + 2 ^ (- e))%Z.
Proof.
  unfold Number.hundredths. destruct (0 <=? e)%Z eqn:He; [reflexivity|].
  apply Z.leb_gt in He.
  assert (Hd : (0 < 2 ^ (- e))%Z) by (apply Z.pow_pos_nonneg; lia).
  set (d := (2 ^ (- e))%Z) in *.
  pose proof (Z.div_mod (200 * Z.pos m + d) (2 * d) ltac:(lia)) as Hdiv.
  pose proof (Z.mod_pos_bound (200 * Z.pos m + d) (2 * d) ltac:(lia)) as Hmod.
  set (n := ((200 * Z.pos m + d) / (2 * d))%Z) in *.
  cbv zeta. nia.
Qed.




End TotalFacts.


(** The request for two units at 10.5 each, with its PDF attached. *)
Example submit_two_at_ten_and_a_half :
  snd (ProductEntryComponent.onSubmit Samples.show_sample
         (ProductEntryComponent.run Samples.show_sample
            [ProductEntryComponent.OthersInput true;
             ProductEntryComponent.FileSelected [Samples.small_pdf];
             ProductEntryComponent.ReaderLoaded;
             ProductEntryComponent.UnitValueInput (Some 10.5%float);
             ProductEntryComponent.QuantityInput (Some 2%float)]))
  = Some (ProductEntryComponent.mkFormData "2" "10.5" "21.00"
            (upload_of Samples.small_pdf)).
Proof. reflexivity. Qed.

(** The total follows the double product, not the decimal one: 1.005 is the
    double just below it. *)
Example total_of_a_binary_fraction :
  Number.toFixed2 Samples.show_sample (0x1.0147ae147ae14p+0 * 1)%float = "1.00"
  /\ Number.toFixed2 Samples.show_sample (0x1.999999999999ap-4 * 3)%float = "0.30".
Proof. split; reflexivity. Qed.

(* ===================================================================== *)
(** * Further properties *)
(* ===================================================================== *)

(** ** Ids and lookups of a repository *)

Section RepositoryInvariant.
Context {E : Type}.
Variable id_of : E -> Z.

Let has_id (i : Z) : E -> bool := fun r => Z.eqb (id_of r) i.

Lemma ids_fresh_insert (t : Table E) (e : E) o :
  ids_fresh id_of t -> id_of e = next_id t ->
  ids_fresh id_of (mkTable (rows t ++ [e]) (next_id t + 1) o).
Proof.
  intros [Hnd Hlt] He. split; simpl.
  - rewrite map_app. simpl. apply NoDup_app; [exact Hnd | repeat constructor; intros [] |].
    intros x Hx [<-|[]]. apply in_map_iff in Hx. destruct Hx as [r [Hr Hin]].
    rewrite Forall_forall in Hlt. specialize (Hlt r Hin). lia.
  - apply Forall_app. split.
    + eapply Forall_impl; [|exact Hlt]. simpl. intros; lia.
    + constructor; [lia | constructor].
Qed.

Lemma map_id_rewrite (l : list E) (e : E) :
  map id_of (map (fun r => if Z.eqb (id_of r) (id_of e) then e else r) l) = map id_of l.
Proof.
  induction l as [|r l IH]; simpl; [reflexivity|]. rewrite IH. f_equal.
  destruct (Z.eqb_spec (id_of r) (id_of e)); congruence.
Qed.

Lemma ids_fresh_rewrite (t : Table E) (e : E) o :
  ids_fresh id_of t -> In (id_of e) (map id_of (rows t)) ->
  ids_fresh id_of
    (mkTable (map (fun r => if Z.eqb (id_of r) (id_of e) then e else r) (rows t))
             (next_id t) o).
Proof.
  intros [Hnd Hlt] He. split; simpl.
  - now rewrite map_id_rewrite.
  - rewrite Forall_forall in *. intros r Hr. apply in_map_iff in Hr.
    destruct Hr as [r0 [<- Hr0]].
    destruct (Z.eqb_spec (id_of r0) (id_of e)) as [Heq|_]; [|now apply Hlt].
    rewrite <- Heq. now apply Hlt.
Qed.

Lemma NoDup_map_filter (p : E -> bool) (l : list E) :
  NoDup (map id_of l) -> NoDup (map id_of (filter p l)).
Proof.
  induction l as [|r l IH]; simpl; intros H; [constructor|].
  inversion H as [|x xs Hnotin Hnd]; subst.
  destruct (p r); [|now apply IH]. simpl. constructor; [|now apply IH].
  intros Hin. apply Hnotin. apply in_map_iff in Hin. destruct Hin as [r' [Hr' Hin]].
  apply filter_In in Hin. apply in_map_iff. exists r'. tauto.
Qed.

Lemma ids_fresh_remove (t : Table E) (p : E -> bool) o :
  ids_fresh id_of t -> ids_fresh id_of (mkTable (filter p (rows t)) (next_id t) o).
Proof.
  intros [Hnd Hlt]. split; simpl.
  - now apply NoDup_map_filter.
  - rewrite Forall_forall in *. intros r Hr. apply filter_In in Hr. now apply Hlt.
Qed.

(** Lookups by id after each kind of write. *)
Lemma find_inserted (t : Table E) (e : E) :
  ids_fresh id_of t -> id_of e = next_id t ->
  find (has_id (next_id t)) (rows t ++ [e]) = Some e.
Proof.
  intros [_ Hlt] He. rewrite Forall_forall in Hlt.
  induction (rows t) as [|r l IH]; simpl.
  - unfold has_id. rewrite He, Z.eqb_refl. reflexivity.
  - unfold has_id at 1. specialize (Hlt r (or_introl eq_refl)) as Hr.
    destruct (Z.eqb_spec (id_of r) (next_id t)); [lia|].
    apply IH. intros x Hx. apply Hlt. now right.
Qed.

Lemma find_other_inserted (l : list E) (e : E) (j : Z) :
  id_of e <> j -> find (has_id j) (l ++ [e]) = find (has_id j) l.
Proof.
  intros He. induction l as [|r l IH]; simpl.
  - unfold has_id. now rewrite (proj2 (Z.eqb_neq _ _) He).
  - destruct (has_id j r); [reflexivity | exact IH].
Qed.

Lemma find_rewritten (l : list E) (e : E) :
  In (id_of e) (map id_of l) ->
  find (has_id (id_of e))
       (map (fun r => if Z.eqb (id_of r) (id_of e) then e else r) l) = Some e.
Proof.
  induction l as [|r l IH]; simpl; [intros []|]. intros Hin.
  destruct (Z.eqb_spec (id_of r) (id_of e)) as [Heq|Hne].
  - unfold has_id. now rewrite Z.eqb_refl.
  - unfold has_id at 1. rewrite (proj2 (Z.eqb_neq _ _) Hne).
    apply IH. destruct Hin as [Hin|Hin]; [contradiction | exact Hin].
Qed.

Lemma find_other_rewritten (l : list E) (e : E) (j : Z) :
  id_of e <> j ->
  find (has_id j) (map (fun r => if Z.eqb (id_of r) (id_of e) then e else r) l)
  = find (has_id j) l.
Proof.
  intros He. induction l as [|r l IH]; simpl; [reflexivity|].
  destruct (Z.eqb_spec (id_of r) (id_of e)) as [Heq|Hne].
  - unfold has_id at 1 3. rewrite (proj2 (Z.eqb_neq _ _) He).
    rewrite Heq, (proj2 (Z.eqb_neq _ _) He). exact IH.
  - destruct (has_id j r); [reflexivity | exact IH].
Qed.

Lemma find_removed (l : list E) (i : Z) :
  find (has_id i) (filter (fun r => negb (Z.eqb (id_of r) i)) l) = None.
Proof.
  apply find_absent. intros r Hr. apply filter_In in Hr. destruct Hr as [_ Hr].
  unfold has_id. now apply negb_true_iff in Hr.
Qed.

Lemma find_other_removed (l : list E) (i j : Z) :
  i <> j ->
  find (has_id j) (filter (fun r => negb (Z.eqb (id_of r) i)) l) = find (has_id j) l.
Proof.
  intros Hij. induction l as [|r l IH]; simpl; [reflexivity|].
  destruct (Z.eqb_spec (id_of r) i) as [Heq|Hne]; simpl.
  - unfold has_id at 2. rewrite Heq, (proj2 (Z.eqb_neq _ _) Hij). exact IH.
  - destruct (has_id j r); [reflexivity | exact IH].
Qed.

Lemma find_in_ids (l : list E) (i : Z) (r : E) :
  find (has_id i) l = Some r -> id_of r = i /\ In i (map id_of l).
Proof.
  intros H. apply find_some in H. destruct H as [Hin Hid].
  unfold has_id in Hid. apply Z.eqb_eq in Hid. split; [exact Hid|].
  apply in_map_iff. now exists r.
Qed.
End RepositoryInvariant.

(** ** The users' service as a store *)

Section UsersStore.
Import Users.

Lemma getUser_available (j : Z) (t : UsersRepository) :
  outage t = None ->
  getUser j t
  = (match find (fun u => Z.eqb (id u) j) (rows t) with
     | Some u => inr (toUserDTO u)
     | None => inl (HttpException "User not found" BAD_REQUEST)
     end, t).
Proof.
  intros Hav. unfold getUser, bind. rewrite findOne_available by assumption.
  now destruct (find _ _).
Qed.

Lemma createUser_success fresh_uid userDTO (t t' : UsersRepository) dto :
  createUser fresh_uid userDTO t = (inr dto, t') ->
  outage t = None
  /\ find (fun u => String.eqb (email u) (c_email userDTO)) (rows t) = None
  /\ dto = toUserDTO (new_user fresh_uid userDTO t)
  /\ t' = mkTable (rows t ++ [new_user fresh_uid userDTO t]) (next_id t + 1) None.
Proof.
  intros H. destruct (outage t) as [e|] eqn:Hout.
  { rewrite (createUser_outage _ _ _ e Hout) in H. discriminate H. }
  destruct (find (fun u => String.eqb (email u) (c_email userDTO)) (rows t))
    as [u|] eqn:Hfind.
  { rewrite (createUser_duplicate _ _ _ u Hout Hfind) in H. discriminate H. }
  rewrite (createUser_fresh _ _ _ Hout Hfind) in H. injection H as <- <-.
  repeat split.
Qed.

Lemma updateUser_cases id0 userDTO (t : UsersRepository) :
  updateUser id0 userDTO t
  = match outage t with
    | Some e => (inl e, t)
    | None =>
        match find (fun u => Z.eqb (id u) id0) (rows t) with
        | None => (inl (HttpException "User not found" NOT_FOUND), t)
        | Some u0 =>
            (inr (toUserDTO (updated_user id0 userDTO u0)),
             mkTable (map (fun r => if Z.eqb (id r) id0
                                    then updated_user id0 userDTO u0 else r) (rows t))
                     (next_id t) None)
        end
    end.
Proof.
  unfold updateUser, bind, Repository.preload, Repository.save, Repository.statement.
  destruct (outage t) as [e|] eqn:Hout; [reflexivity|].
  simpl. destruct (find _ _) as [u0|]; simpl; [|reflexivity].
  rewrite Hout. reflexivity.
Qed.

Lemma deleteUser_cases id0 (t : UsersRepository) :
  deleteUser id0 t
  = match outage t with
    | Some e => (inl (HttpException (err_message e) BAD_REQUEST), t)
    | None =>
        (inr tt, mkTable (filter (fun r => negb (Z.eqb (id r) id0)) (rows t))
                         (next_id t) None)
    end.
Proof.
  unfold deleteUser, try_catch, Repository.delete, Repository.statement.
  destruct (outage t) as [e|] eqn:Hout; reflexivity.
Qed.

(** X1: the user that [createUser] has stored is the one [getUser] returns
    for the id of the DTO; the other ids answer as before; [getAllUsers]
    lists the new user last, after the users it listed before. *)
Theorem createUser_then_getUser fresh_uid userDTO (t t' : UsersRepository) dto :
  ids_fresh id t ->
  createUser fresh_uid userDTO t = (inr dto, t') ->
  getUser (dto_id dto) t' = (inr dto, t')
  /\ (forall j, j <> dto_id dto -> getUser j t' = (fst (getUser j t), t'))
  /\ (exists before, getAllUsers t = (inr before, t)
                     /\ getAllUsers t' = (inr (before ++ [dto])%list, t'))
  /\ dto_uid dto = fresh_uid.
Proof.
  intros Hfresh Hcreate.
  destruct (createUser_success _ _ _ _ _ Hcreate) as [Hav [_ [-> ->]]].
  set (u := new_user fresh_uid userDTO t).
  split; [|split; [|split]].
  - rewrite getUser_available by reflexivity. simpl.
    now rewrite (find_inserted id t u Hfresh eq_refl).
  - intros j Hj. rewrite !getUser_available by (assumption || reflexivity). simpl.
    rewrite (find_other_inserted id (rows t) u j); [reflexivity|].
    unfold u. simpl in *. congruence.
  - exists (map toUserDTO (rows t)). split.
    + unfold getAllUsers, bind, Repository.find_all.
      now rewrite statement_available.
    + unfold getAllUsers, bind, Repository.find_all.
      rewrite statement_available by reflexivity. simpl.
      now rewrite map_app.
  - reflexivity.
Qed.

(** X2: an update keeps the id and the uid of the user and writes the
    submitted name and email; afterwards [getUser] of that id returns the
    updated DTO, every other id answers as before, and the table has as many
    rows as before. *)
Theorem updateUser_effect id0 userDTO (t t' : UsersRepository) dto :
  updateUser id0 userDTO t = (inr dto, t') ->
  dto_id dto = id0
  /\ (exists previous, getUser id0 t = (inr previous, t)
                       /\ dto_uid dto = dto_uid previous)
  /\ dto_name dto = c_name userDTO
  /\ dto_email dto = c_email userDTO
  /\ getUser id0 t' = (inr dto, t')
  /\ (forall j, j <> id0 -> getUser j t' = (fst (getUser j t), t'))
  /\ List.length (rows t') = List.length (rows t).
Proof.
  intros H. rewrite updateUser_cases in H.
  destruct (outage t) as [e|] eqn:Hav; [discriminate H|].
  destruct (find (fun u => Z.eqb (id u) id0) (rows t)) as [u0|] eqn:Hfind;
    [|discriminate H].
  injection H as <- <-.
  set (u := updated_user id0 userDTO u0).
  destruct (find_in_ids id (rows t) id0 u0 Hfind) as [Hid0 Hin].
  split; [reflexivity|]. split.
  { exists (toUserDTO u0). split; [|reflexivity].
    rewrite getUser_available by assumption. now rewrite Hfind. }
  split; [reflexivity|]. split; [reflexivity|]. split; [|split].
  - rewrite getUser_available by reflexivity. simpl.
    change id0 with (id u) at 1 2.
    rewrite (find_rewritten id (rows t) u); [reflexivity | exact Hin].
  - intros j Hj. rewrite !getUser_available by (assumption || reflexivity). simpl.
    change id0 with (id u) at 1.
    rewrite (find_other_rewritten id (rows t) u j); [reflexivity|].
    simpl. congruence.
  - simpl. apply length_map.
Qed.

(** X3: after a deletion the id is gone -- [getUser] and [updateUser] of it
    fail with 'User not found' -- every other id answers as before, and
    deleting the same id once more changes nothing. *)
Theorem deleteUser_effect id0 (t t' : UsersRepository) :
  deleteUser id0 t = (inr tt, t') ->
  getUser id0 t' = (inl (HttpException "User not found" BAD_REQUEST), t')
  /\ (forall userDTO,
        updateUser id0 userDTO t' = (inl (HttpException "User not found" NOT_FOUND), t'))
  /\ (forall j, j <> id0 -> getUser j t' = (fst (getUser j t), t'))
  /\ deleteUser id0 t' = (inr tt, t').
Proof.
  intros H. rewrite deleteUser_cases in H.
  destruct (outage t) as [e|] eqn:Hav; [discriminate H|].
  injection H as <-.
  split; [|split; [|split]].
  - rewrite getUser_available by reflexivity. simpl.
    now rewrite (find_removed id (rows t) id0).
  - intros userDTO. rewrite updateUser_cases. simpl.
    now rewrite (find_removed id (rows t) id0).
  - intros j Hj. rewrite !getUser_available by (assumption || reflexivity). simpl.
    now rewrite (find_other_removed id (rows t) id0 j) by congruence.
  - rewrite deleteUser_cases. simpl.
    rewrite (filter_keeps_all _ (filter _ (rows t))); [reflexivity|].
    intros r Hr. apply filter_In in Hr. tauto.
Qed.
End UsersStore.

Section UsersInvariants.
Import Users.

Lemma createUser_store fresh_uid userDTO (t : UsersRepository) :
  snd (createUser fresh_uid userDTO t) = t
  \/ (find (fun u => String.eqb (email u) (c_email userDTO)) (rows t) = None
      /\ snd (createUser fresh_uid userDTO t)
         = mkTable (rows t ++ [new_user fresh_uid userDTO t]) (next_id t + 1) None).
Proof.
  destruct (outage t) as [e|] eqn:Hout.
  { left. now rewrite (createUser_outage _ _ _ e Hout). }
  destruct (find (fun u => String.eqb (email u) (c_email userDTO)) (rows t))
    as [u|] eqn:Hfind.
  { left. now rewrite (createUser_duplicate _ _ _ u Hout Hfind). }
  right. split; [reflexivity|]. now rewrite (createUser_fresh _ _ _ Hout Hfind).
Qed.

Lemma controller_register_outcome fresh_uid userDTO (t : UsersRepository) :
  AuthController.register fresh_uid userDTO t
  = (match fst (createUser fresh_uid userDTO t) with
     | inl e => inl (HttpException
                       (JS.or_else (err_message e) "user registration failed")
                       BAD_REQUEST)
     | inr _ => inr registered
     end,
     snd (createUser fresh_uid userDTO t)).
Proof.
  unfold AuthController.register, bind. rewrite register_outcome.
  destruct (createUser fresh_uid userDTO t) as [[e|dto] t']; reflexivity.
Qed.

Lemma validateUser_store payload (t : UsersRepository) :
  snd (Auth.validateUser payload t) = t.
Proof.
  unfold Auth.validateUser, findByPayload, findOne, bind, Repository.findOne,
    Repository.statement.
  destruct (outage t); [reflexivity|]. simpl. now destruct (find _ _).
Qed.

Lemma getUser_store j (t : UsersRepository) : snd (getUser j t) = t.
Proof.
  unfold getUser, bind, Repository.findOne, Repository.statement.
  destruct (outage t); [reflexivity|]. simpl. now destruct (find _ _).
Qed.

Lemma getAllUsers_store (t : UsersRepository) : snd (getAllUsers t) = t.
Proof.
  unfold getAllUsers, bind, Repository.find_all, Repository.statement.
  now destruct (outage t).
Qed.

Lemma NoDup_map_filter_any {Row Key : Type} (key : Row -> Key) (keep : Row -> bool)
      (table : list Row) (Hkeys : NoDup (map key table)) :
  NoDup (map key (filter keep table)).
Proof.
  induction table as [|r l IH]; simpl in *; [constructor|].
  inversion Hkeys as [|x xs Hnotin Hnd]; subst.
  destruct (keep r); [|now apply IH]. simpl. constructor; [|now apply IH].
  intros Hin. apply Hnotin. apply in_map_iff in Hin. destruct Hin as [r' [Hr' Hin]].
  apply filter_In in Hin. apply in_map_iff. exists r'. tauto.
Qed.

Lemma after_call_ids_fresh (t : UsersRepository) (c : UserCall) :
  ids_fresh id t -> ids_fresh id (after_call t c).
Proof.
  intros Hfresh. destruct c as [u d|u d|i d|i|i| |p]; simpl.
  - destruct (createUser_store u d t) as [->|[_ ->]]; [exact Hfresh|].
    now apply ids_fresh_insert.
  - rewrite controller_register_outcome. simpl.
    destruct (createUser_store u d t) as [->|[_ ->]]; [exact Hfresh|].
    now apply ids_fresh_insert.
  - rewrite updateUser_cases. destruct (outage t); [exact Hfresh|].
    destruct (find (fun u => Z.eqb (id u) i) (rows t)) as [u0|] eqn:Hfind;
      [|exact Hfresh].
    simpl. destruct (find_in_ids id (rows t) i u0 Hfind) as [_ Hin].
    exact (ids_fresh_rewrite id t (updated_user i d u0) None Hfresh Hin).
  - rewrite deleteUser_cases. destruct (outage t); [exact Hfresh|].
    simpl. now apply ids_fresh_remove.
  - now rewrite getUser_store.
  - now rewrite getAllUsers_store.
  - now rewrite validateUser_store.
Qed.

Lemma after_call_emails_unique (t : UsersRepository) (c : UserCall) :
  is_update c = false -> emails_unique t -> emails_unique (after_call t c).
Proof.
  intros Hc Huniq.
  assert (Hcreate : forall u d, emails_unique (snd (createUser u d t))).
  { intros u d. destruct (createUser_store u d t) as [->|[Hnone ->]]; [exact Huniq|].
    unfold emails_unique. simpl. rewrite map_app. simpl.
    apply NoDup_app; [exact Huniq | repeat constructor; intros [] |].
    intros x Hx [<-|[]]. apply in_map_iff in Hx. destruct Hx as [r [Hr Hin]].
    pose proof (find_none _ _ Hnone r Hin) as Hneq. simpl in Hneq.
    apply String.eqb_neq in Hneq. contradiction. }
  destruct c as [u d|u d|i d|i|i| |p]; simpl.
  - apply Hcreate.
  - rewrite controller_register_outcome. apply Hcreate.
  - discriminate Hc.
  - rewrite deleteUser_cases. destruct (outage t); [exact Huniq|].
    unfold emails_unique. simpl. now apply NoDup_map_filter_any.
  - now rewrite getUser_store.
  - now rewrite getAllUsers_store.
  - now rewrite validateUser_store.
Qed.

(** X4: whatever calls reach the users' table -- creations, registrations,
    updates, deletions, reads -- its ids stay pairwise different and below
    the counter that numbers the next user. *)
Theorem user_ids_stay_unique (calls : list UserCall) (t : UsersRepository) :
  ids_fresh id t -> ids_fresh id (fold_left after_call calls t).
Proof.
  revert t. induction calls as [|c calls IH]; intros t Hfresh; [exact Hfresh|].
  simpl. apply IH. now apply after_call_ids_fresh.
Qed.

(** X5: as long as no user is updated, no two stored users share an email:
    creations and registrations refuse a registered email, deletions and
    reads add none. *)
Theorem user_emails_stay_unique (calls : list UserCall) (t : UsersRepository) :
  forallb (fun c => negb (is_update c)) calls = true ->
  emails_unique t -> emails_unique (fold_left after_call calls t).
Proof.
  revert t. induction calls as [|c calls IH]; intros t Hcalls Huniq; [exact Huniq|].
  simpl in Hcalls. apply andb_prop in Hcalls. destruct Hcalls as [Hc Hcalls].
  simpl. apply IH; [exact Hcalls|].
  apply after_call_emails_unique; [now apply negb_true_iff | exact Huniq].
Qed.
End UsersInvariants.

Lemma createUser_then_getUser_witness :
  Users.getUser 2 (snd (Users.createUser "uid-1" Samples.bob_input Samples.one_user))
  = (inr (Users.mkUserDTO 2 "uid-1" "Bob" "bob@example.com" "987.654.321-00"),
     snd (Users.createUser "uid-1" Samples.bob_input Samples.one_user)).
Proof.
  refine (proj1 (createUser_then_getUser "uid-1" Samples.bob_input Samples.one_user
                   _ _ _ eq_refl)).
  split; simpl.
  - constructor; [intros [] | constructor].
  - repeat constructor.
Defined.

Lemma updateUser_effect_witness :
  Users.getUser 1 (snd (Users.updateUser 1 Samples.bob_input Samples.one_user))
  = (inr (Users.mkUserDTO 1 "9b2f-alice" "Bob" "bob@example.com" "987.654.321-00"),
     snd (Users.updateUser 1 Samples.bob_input Samples.one_user)).
Proof.
  exact (proj1 (proj2 (proj2 (proj2 (proj2
           (updateUser_effect 1 Samples.bob_input Samples.one_user _ _ eq_refl)))))).
Defined.

Lemma deleteUser_effect_witness :
  Users.getUser 1 (snd (Users.deleteUser 1 Samples.one_user))
  = (inl (HttpException "User not found" BAD_REQUEST),
     snd (Users.deleteUser 1 Samples.one_user)).
Proof.
  exact (proj1 (deleteUser_effect 1 Samples.one_user _ eq_refl)).
Defined.

Lemma user_ids_stay_unique_witness :
  map Users.id
      (rows (fold_left after_call
               [CallCreateUser "uid-1" Samples.bob_input;
                CallDeleteUser 1;
                CallRegister "uid-2" Samples.eve_input;
                CallUpdateUser 2 Samples.bob_again]
               Samples.one_user))
  = [2%Z; 3%Z]
  /\ ids_fresh Users.id
       (fold_left after_call
          [CallCreateUser "uid-1" Samples.bob_input;
           CallDeleteUser 1;
           CallRegister "uid-2" Samples.eve_input;
           CallUpdateUser 2 Samples.bob_again]
          Samples.one_user).
Proof.
  split; [reflexivity|].
  apply user_ids_stay_unique. split; simpl.
  - constructor; [intros [] | constructor].
  - repeat constructor.
Defined.

Lemma user_emails_stay_unique_witness :
  emails_unique
    (fold_left after_call
       [CallCreateUser "uid-1" Samples.bob_input;
        CallRegister "uid-2" Samples.bob_again;
        CallDeleteUser 1;
        CallCreateUser "uid-3" Samples.eve_input]
       Samples.one_user).
Proof.
  apply user_emails_stay_unique; [reflexivity|].
  unfold emails_unique. simpl. constructor; [intros [] | constructor].
Defined.

(** ** Failures of the store, registration and login *)

Section AuthFlows.
Import Users Auth.
Variable comparePasswords : string -> string -> bool.
Variable sign : JwtPayload -> string.
Variable env_EXPIRESIN : option string.
Variable DEFAULT_EXPIRESIN : string.

(** X6: while the store answers every statement with the error [e], no call
    changes the table; reads, creations, updates and logins fail with [e]
    itself, [deleteUser] turns it into a BAD_REQUEST carrying its message,
    [Auth.register] into a failure status and the registration endpoint into
    a BAD_REQUEST. *)
Theorem store_failure_surfaces (t : UsersRepository) (e : Exception)
        j fresh_uid userDTO credentials payload :
  outage t = Some e ->
  getUser j t = (inl e, t)
  /\ getAllUsers t = (inl e, t)
  /\ createUser fresh_uid userDTO t = (inl e, t)
  /\ updateUser j userDTO t = (inl e, t)
  /\ findByLogin comparePasswords credentials t = (inl e, t)
  /\ login sign env_EXPIRESIN DEFAULT_EXPIRESIN comparePasswords credentials t = (inl e, t)
  /\ validateUser payload t = (inl e, t)
  /\ deleteUser j t = (inl (HttpException (err_message e) BAD_REQUEST), t)
  /\ Auth.register fresh_uid userDTO t = (inr (rejected e), t)
  /\ AuthController.register fresh_uid userDTO t
     = (inl (HttpException (JS.or_else (err_message e) "user registration failed")
                           BAD_REQUEST), t).
Proof.
  intros Hout.
  assert (Hlogin : findByLogin comparePasswords credentials t = (inl e, t)).
  { unfold findByLogin, bind, Repository.findOne.
    now rewrite (statement_outage _ _ e Hout). }
  repeat split.
  - unfold getUser, bind, Repository.findOne. now rewrite (statement_outage _ _ e Hout).
  - unfold getAllUsers, bind, Repository.find_all.
    now rewrite (statement_outage _ _ e Hout).
  - now apply createUser_outage.
  - rewrite updateUser_cases. now rewrite Hout.
  - exact Hlogin.
  - unfold login, bind. now rewrite Hlogin.
  - unfold validateUser, findByPayload, findOne, bind, Repository.findOne.
    now rewrite (statement_outage _ _ e Hout).
  - rewrite deleteUser_cases. now rewrite Hout.
  - rewrite register_outcome. now rewrite (createUser_outage _ _ _ e Hout).
  - rewrite controller_register_outcome.
    now rewrite (createUser_outage _ _ _ e Hout).
Qed.

Lemma find_appended {A} (p : A -> bool) (l : list A) (x : A) :
  find p l = None -> p x = true -> find p (l ++ [x]) = Some x.
Proof.
  intros Hnone Hx. induction l as [|a l IH]; simpl in *.
  - now rewrite Hx.
  - destruct (p a); [discriminate Hnone | now apply IH].
Qed.

Lemma find_witnessed {A} (p : A -> bool) (l : list A) (x : A) :
  In x l -> p x = true -> exists y, find p l = Some y /\ p y = true.
Proof.
  intros Hin Hx. destruct (find p l) as [y|] eqn:Hfind.
  - exists y. split; [reflexivity|]. now apply find_some in Hfind.
  - rewrite (find_none _ _ Hfind x Hin) in Hx. discriminate Hx.
Qed.

(** X7: a user who has just been registered can log in: the login with the
    registered email answers with the token of the new uid when
    [comparePasswords] accepts the submitted password against the stored
    one, and with Unauthorized 'Invalid credentials' when it does not. *)
Theorem register_then_login fresh_uid userDTO (t t1 : UsersRepository) status pw :
  Auth.register fresh_uid userDTO t = (inr status, t1) ->
  success status = true ->
  login sign env_EXPIRESIN DEFAULT_EXPIRESIN comparePasswords
        (mkLogin (c_email userDTO) pw) t1
  = (if comparePasswords (c_password userDTO) pw
     then inr (token_for sign env_EXPIRESIN DEFAULT_EXPIRESIN fresh_uid)
     else inl (HttpException "Invalid credentials" UNAUTHORIZED), t1).
Proof.
  intros Hreg Hok. rewrite register_outcome in Hreg.
  destruct (createUser fresh_uid userDTO t) as [[e|dto] t'] eqn:Hcreate;
    simpl in Hreg; injection Hreg as <- <-; [discriminate Hok|].
  destruct (createUser_success _ _ _ _ _ Hcreate) as [Hav [Hnone [_ ->]]].
  assert (Hfind : find (fun u => String.eqb (email u) (c_email userDTO))
                       (rows t ++ [new_user fresh_uid userDTO t])
                  = Some (new_user fresh_uid userDTO t)).
  { apply find_appended; [exact Hnone | apply String.eqb_refl]. }
  unfold login, bind.
  rewrite (findByLogin_known comparePasswords (mkLogin (c_email userDTO) pw)
             (mkTable (rows t ++ [new_user fresh_uid userDTO t]) (next_id t + 1) None)
             (new_user fresh_uid userDTO t) eq_refl Hfind).
  simpl. now destruct (comparePasswords _ _).
Qed.

(** X8: a token that [login] has issued validates: [login] leaves the store
    as it was, the token is the signature of the uid it reports, and
    [validateUser] of that uid returns a user with this uid. *)
Theorem login_then_validateUser credentials (t t' : UsersRepository) status :
  login sign env_EXPIRESIN DEFAULT_EXPIRESIN comparePasswords credentials t
  = (inr status, t') ->
  t' = t
  /\ accessToken status = sign {| payload_uid := login_uid status |}
  /\ exists dto, validateUser {| payload_uid := login_uid status |} t = (inr dto, t)
                 /\ dto_uid dto = login_uid status.
Proof.
  intros Hlogin. unfold login, bind in Hlogin.
  destruct (outage t) as [e|] eqn:Hout.
  { assert (H : findByLogin comparePasswords credentials t = (inl e, t)).
    { unfold findByLogin, bind, Repository.findOne.
      now rewrite (statement_outage _ _ e Hout). }
    rewrite H in Hlogin. discriminate Hlogin. }
  destruct (find (fun u => String.eqb (email u) (login_email credentials)) (rows t))
    as [u|] eqn:Hfind.
  2:{ rewrite (findByLogin_unknown comparePasswords credentials t Hout Hfind) in Hlogin.
      discriminate Hlogin. }
  rewrite (findByLogin_known comparePasswords credentials t u Hout Hfind) in Hlogin.
  destruct (comparePasswords _ _); [|discriminate Hlogin].
  injection Hlogin as <- <-. split; [reflexivity|]. split; [reflexivity|].
  apply find_some in Hfind. destruct Hfind as [Hin _].
  destruct (find_witnessed (fun x => String.eqb (uid x) (uid u)) (rows t) u Hin
              (String.eqb_refl _)) as [u' [Hu' Huid]].
  exists (toUserDTO u'). split.
  - now apply validateUser_known.
  - simpl. now apply String.eqb_eq.
Qed.

(** X9: the registration endpoint answers either with the status 'user
    registered', the user being stored, or with a BAD_REQUEST that leaves
    the store as it was; for an email that is registered already the
    BAD_REQUEST says 'User already exists'. *)
Theorem register_endpoint_answers fresh_uid userDTO (t : UsersRepository) :
  (forall status t',
     AuthController.register fresh_uid userDTO t = (inr status, t') ->
     status = registered
     /\ exists dto, createUser fresh_uid userDTO t = (inr dto, t')
                    /\ dto_email dto = c_email userDTO)
  /\ (forall err t',
        AuthController.register fresh_uid userDTO t = (inl err, t') ->
        t' = t /\ exists message, err = HttpException message BAD_REQUEST)
  /\ (outage t = None ->
      forall u, find (fun u => String.eqb (email u) (c_email userDTO)) (rows t) = Some u ->
      AuthController.register fresh_uid userDTO t
      = (inl (HttpException "User already exists" BAD_REQUEST), t)).
Proof.
  rewrite controller_register_outcome.
  destruct (createUser fresh_uid userDTO t) as [[e|dto] t0] eqn:Hcreate; simpl.
  - assert (Ht0 : t0 = t).
    { destruct (createUser_store fresh_uid userDTO t) as [Hs|[Hnone Hs]];
        rewrite Hcreate in Hs; simpl in Hs; [exact Hs|].
      destruct (outage t) as [e'|] eqn:Hout.
      - rewrite (createUser_outage _ _ _ e' Hout) in Hcreate. congruence.
      - rewrite (createUser_fresh _ _ _ Hout Hnone) in Hcreate. discriminate Hcreate. }
    subst t0. split; [intros status t' H; discriminate H|]. split.
    + intros err t' H. injection H as <- <-. split; [reflexivity | eexists; reflexivity].
    + intros Hav u Hfind.
      rewrite (createUser_duplicate _ _ _ u Hav Hfind) in Hcreate.
      injection Hcreate as <-. reflexivity.
  - destruct (createUser_success _ _ _ _ _ Hcreate) as [Hav [Hnone [Hdto Ht0]]].
    split; [|split].
    + intros status t' H. injection H as <- <-. split; [reflexivity|].
      exists dto. split; [reflexivity|]. now subst dto.
    + intros err t' H. discriminate H.
    + intros _ u Hfind. rewrite Hfind in Hnone. discriminate Hnone.
Qed.
End AuthFlows.

Lemma store_failure_surfaces_witness :
  Users.deleteUser 1 MoreSamples.failing_store
  = (inl (HttpException "Connection lost" BAD_REQUEST), MoreSamples.failing_store)
  /\ Users.getUser 1 MoreSamples.failing_store
     = (inl (QueryFailedError "Connection lost"), MoreSamples.failing_store).
Proof.
  pose proof (store_failure_surfaces Samples.compare_sample Samples.sign_sample None "60s"
                MoreSamples.failing_store (QueryFailedError "Connection lost")
                1 "uid-1" Samples.bob_input (Users.mkLogin "a" "b")
                (Auth.mkPayload "x") eq_refl) as H.
  split.
  - exact (proj1 (proj2 (proj2 (proj2 (proj2 (proj2 (proj2 (proj2 H)))))))).
  - exact (proj1 H).
Defined.

Lemma register_then_login_witness :
  Auth.login Samples.sign_sample None "60s" String.eqb
    (Users.mkLogin "bob@example.com" "pw")
    (snd (Auth.register "uid-1" Samples.bob_input Samples.one_user))
  = (inr (Auth.mkLoginStatus "jwt:uid-1" "60s" "uid-1"),
     snd (Auth.register "uid-1" Samples.bob_input Samples.one_user)).
Proof.
  exact (register_then_login String.eqb Samples.sign_sample None "60s"
           "uid-1" Samples.bob_input Samples.one_user _ _ "pw" eq_refl eq_refl).
Defined.

Lemma login_then_validateUser_witness :
  exists dto,
    Auth.validateUser (Auth.mkPayload "9b2f-alice") Samples.one_user
    = (inr dto, Samples.one_user)
    /\ Users.dto_uid dto = "9b2f-alice".
Proof.
  exact (proj2 (proj2 (login_then_validateUser Samples.compare_sample Samples.sign_sample
                         None "60s" (Users.mkLogin "alice@example.com" "secret")
                         Samples.one_user _ _ eq_refl))).
Defined.

Lemma register_endpoint_answers_witness :
  AuthController.register "uid-1" MoreSamples.alice_again Samples.one_user
  = (inl (HttpException "User already exists" BAD_REQUEST), Samples.one_user).
Proof.
  exact (proj2 (proj2 (register_endpoint_answers "uid-1" MoreSamples.alice_again
                         Samples.one_user))
           eq_refl Samples.alice eq_refl).
Defined.

(** ** The mask of the national id, for every number of digits *)

Section MaskFacts.
Import Users.

Lemma mask_first_eq (l : list ascii) :
  mask_first l
  = match mask_here l with
    | Some masked => masked
    | None => match l with
              | [] => []
              | c :: l' => c :: mask_first l'
              end
    end.
Proof. destruct l; reflexivity. Qed.

Lemma mask_first_short (l : list ascii) :
  (List.length l < 11)%nat -> mask_first l = l.
Proof.
  induction l as [|c l IH]; intros Hlen; [reflexivity|].
  rewrite mask_first_eq. unfold mask_here.
  destruct (Nat.leb_spec 11 (List.length (c :: l))) as [Hge|_]; [lia|].
  simpl. f_equal. apply IH. simpl in Hlen. lia.
Qed.

Lemma mask_first_digits (l : list ascii) :
  forallb JS.isDigit l = true -> filter JS.isDigit (mask_first l) = l.
Proof.
  induction l as [|c l IH]; intros Hdig; [reflexivity|].
  rewrite mask_first_eq. destruct (mask_here (c :: l)) as [masked|] eqn:Hmask.
  - unfold mask_here in Hmask.
    destruct ((11 <=? List.length (c :: l))%nat && forallb JS.isDigit (firstn 11 (c :: l)))
      eqn:Hcond; [|discriminate Hmask].
    injection Hmask as <-. clear IH.
    apply andb_prop in Hcond. destruct Hcond as [Hlen _].
    apply Nat.leb_le in Hlen.
    do 10 (destruct l as [|? l]; [simpl in Hlen; lia|]).
    clear Hlen. simpl in Hdig.
    repeat (apply andb_prop in Hdig; destruct Hdig as [? Hdig]).
    cbn [firstn skipn app filter].
    repeat (match goal with H : JS.isDigit _ = true |- _ => rewrite H; clear H end).
    change (JS.isDigit ".") with false. change (JS.isDigit "-") with false.
    cbn iota. now rewrite (filter_all _ _ Hdig).
  - simpl in Hdig. apply andb_prop in Hdig. destruct Hdig as [Hc Hdig].
    simpl. rewrite Hc. f_equal. now apply IH.
Qed.

(** X10: whatever the stored CPF, the DTO shows exactly its digits, in their
    order: the mask adds only its two points and its hyphen; with fewer than
    eleven digits it adds nothing; and a CPF taken from a DTO and stored
    again is shown as before. *)
Theorem toUserDTO_keeps_digits (entity : UserEntity) :
  JS.replace_non_digits (dto_cpf (toUserDTO entity)) = JS.replace_non_digits (cpf entity)
  /\ ((List.length (JS.chars (JS.replace_non_digits (cpf entity))) < 11)%nat ->
      dto_cpf (toUserDTO entity) = JS.replace_non_digits (cpf entity))
  /\ dto_cpf (toUserDTO (mkUser (id entity) (uid entity) (name entity) (email entity)
                                (password entity) (dto_cpf (toUserDTO entity))))
     = dto_cpf (toUserDTO entity).
Proof.
  assert (Hkeep : JS.replace_non_digits (dto_cpf (toUserDTO entity))
                  = JS.replace_non_digits (cpf entity)).
  { simpl. unfold mask_cpf. unfold JS.replace_non_digits at 1.
    rewrite chars_str, mask_first_digits by apply replace_non_digits_digits.
    apply str_chars. }
  split; [exact Hkeep|]. split.
  - intros Hlen. simpl. unfold mask_cpf. rewrite mask_first_short by exact Hlen.
    apply str_chars.
  - simpl in *. now rewrite Hkeep.
Qed.
End MaskFacts.

Lemma toUserDTO_keeps_digits_witness :
  Users.dto_cpf (Users.toUserDTO (Users.mkUser 3 "u" "Eve" "eve@example.com" "pw" "12-3"))
  = "123".
Proof.
  exact (proj1 (proj2 (toUserDTO_keeps_digits
                         (Users.mkUser 3 "u" "Eve" "eve@example.com" "pw" "12-3")))
           ltac:(vm_compute; repeat constructor)).
Defined.

(** ** The suppliers' service as a store *)

Section SuppliersStore.
Variable SupplierFields CreateSupplierDto UpdateSupplierDto : Type.
Variable of_create : CreateSupplierDto -> SupplierFields.
Variable apply_update : UpdateSupplierDto -> SupplierFields -> SupplierFields.
Variable show_code : Z -> string.

Let Repo : Type := Suppliers.SupplierRepository SupplierFields.
Let create := Suppliers.create SupplierFields CreateSupplierDto of_create.
Let update := Suppliers.update SupplierFields UpdateSupplierDto apply_update.
Let remove := Suppliers.remove SupplierFields.
Let findOne := Suppliers.findOne SupplierFields.
Let findAll := Suppliers.findAll SupplierFields.
Let findByCode := Suppliers.findByCode SupplierFields show_code.

Lemma supplier_findOne_available j (t : Repo) :
  outage t = None ->
  findOne j t = (inr (find (fun s => Z.eqb (Suppliers.id s) j) (rows t)), t).
Proof. intros Hav. unfold findOne, Suppliers.findOne. now apply findOne_available. Qed.

Lemma supplier_findByCode_available j (t : Repo) :
  outage t = None ->
  findByCode j t
  = (match find (fun s => Z.eqb (Suppliers.id s) j) (rows t) with
     | Some s => inr s
     | None => inl (NotFoundException
                      ("Fornecedor com código " ++ show_code j ++ " não encontrado."))
     end, t).
Proof.
  intros Hav. unfold findByCode, Suppliers.findByCode, bind.
  rewrite findOne_available by assumption. now destruct (find _ _).
Qed.

Lemma supplier_update_cases id0 dto (t : Repo) :
  update id0 dto t
  = match outage t with
    | Some e => (inl e, t)
    | None =>
        match find (fun s => Z.eqb (Suppliers.id s) id0) (rows t) with
        | None => (inl (NotFoundException "Supplier not found"), t)
        | Some s0 =>
            let s := Suppliers.mkSupplier id0 (apply_update dto (Suppliers.fields s0)) in
            (inr s,
             mkTable (map (fun r => if Z.eqb (Suppliers.id r) id0 then s else r) (rows t))
                     (next_id t) None)
        end
    end.
Proof.
  unfold update, Suppliers.update, bind, Repository.preload, Repository.save,
    Repository.statement.
  destruct (outage t) as [e|] eqn:Hout; [reflexivity|].
  simpl. destruct (find _ _) as [s0|]; simpl; [|reflexivity].
  rewrite Hout. reflexivity.
Qed.

Lemma supplier_remove_cases id0 (t : Repo) :
  remove id0 t
  = match outage t with
    | Some e => (inl e, t)
    | None =>
        (inr tt, mkTable (filter (fun r => negb (Z.eqb (Suppliers.id r) id0)) (rows t))
                         (next_id t) None)
    end.
Proof.
  unfold remove, Suppliers.remove, Repository.delete, Repository.statement.
  destruct (outage t) as [e|] eqn:Hout; reflexivity.
Qed.

(** X11: the supplier that [create] has stored carries the fields of the DTO
    and a new id; [findOne] and [findByCode] of that id return it, and
    [findAll] lists it last, after the suppliers it listed before. *)
Theorem supplier_create_then_find dto (t t' : Repo) s :
  ids_fresh Suppliers.id t ->
  create dto t = (inr s, t') ->
  Suppliers.fields s = of_create dto
  /\ ~ In (Suppliers.id s) (map Suppliers.id (rows t))
  /\ findOne (Suppliers.id s) t' = (inr (Some s), t')
  /\ findByCode (Suppliers.id s) t' = (inr s, t')
  /\ (exists before, findAll t = (inr before, t)
                     /\ findAll t' = (inr (before ++ [s])%list, t'))
  /\ ids_fresh Suppliers.id t'.
Proof.
  intros Hfresh Hcreate.
  unfold create, Suppliers.create, Repository.save_new, Repository.statement in Hcreate.
  destruct (outage t) as [e|] eqn:Hav; [discriminate Hcreate|].
  simpl in Hcreate. injection Hcreate as <- <-.
  set (s := Suppliers.mkSupplier (next_id t) (of_create dto)).
  split; [reflexivity|]. split.
  { intros Hin. apply in_map_iff in Hin. destruct Hin as [r [Hr Hin]].
    destruct Hfresh as [_ Hlt]. rewrite Forall_forall in Hlt.
    specialize (Hlt r Hin). simpl in Hr. lia. }
  split; [|split; [|split]].
  - rewrite supplier_findOne_available by reflexivity. simpl.
    now rewrite (find_inserted Suppliers.id t s Hfresh eq_refl).
  - rewrite supplier_findByCode_available by reflexivity. simpl.
    now rewrite (find_inserted Suppliers.id t s Hfresh eq_refl).
  - exists (rows t). unfold findAll, Suppliers.findAll, Repository.find_all. split.
    + now rewrite statement_available.
    + now rewrite statement_available.
  - now apply ids_fresh_insert.
Qed.

(** X12: an update keeps the id of the supplier and applies the DTO to its
    fields; afterwards [findOne] of that id returns the updated supplier and
    every other id answers as before. *)
Theorem supplier_update_effect id0 dto (t t' : Repo) s :
  update id0 dto t = (inr s, t') ->
  Suppliers.id s = id0
  /\ (exists previous, findOne id0 t = (inr (Some previous), t)
                       /\ Suppliers.fields s = apply_update dto (Suppliers.fields previous))
  /\ findOne id0 t' = (inr (Some s), t')
  /\ (forall j, j <> id0 -> findOne j t' = (fst (findOne j t), t'))
  /\ List.length (rows t') = List.length (rows t).
Proof.
  intros H. rewrite supplier_update_cases in H.
  destruct (outage t) as [e|] eqn:Hav; [discriminate H|].
  destruct (find (fun r => Z.eqb (Suppliers.id r) id0) (rows t)) as [s0|] eqn:Hfind;
    [|discriminate H].
  cbv zeta in H. injection H as <- <-.
  set (s := Suppliers.mkSupplier id0 (apply_update dto (Suppliers.fields s0))).
  destruct (find_in_ids Suppliers.id (rows t) id0 s0 Hfind) as [_ Hin].
  split; [reflexivity|]. split.
  { exists s0. split; [|reflexivity].
    rewrite supplier_findOne_available by assumption. now rewrite Hfind. }
  split; [|split].
  - rewrite supplier_findOne_available by reflexivity. simpl.
    change id0 with (Suppliers.id s) at 1 2.
    now rewrite (find_rewritten Suppliers.id (rows t) s Hin).
  - intros j Hj. rewrite !supplier_findOne_available by (assumption || reflexivity).
    simpl. change id0 with (Suppliers.id s) at 1.
    rewrite (find_other_rewritten Suppliers.id (rows t) s j); [reflexivity|].
    simpl. congruence.
  - simpl. apply length_map.
Qed.

(** X13: after [remove] the id is gone -- [findOne] resolves to [null],
    [findByCode] and [update] fail with NotFound -- every other id answers as
    before, and removing the same id once more changes nothing. *)
Theorem supplier_remove_effect id0 (t t' : Repo) :
  remove id0 t = (inr tt, t') ->
  findOne id0 t' = (inr None, t')
  /\ fails_with NOT_FOUND (fst (findByCode id0 t'))
  /\ (forall dto, update id0 dto t' = (inl (HttpException "Supplier not found" NOT_FOUND), t'))
  /\ (forall j, j <> id0 -> findOne j t' = (fst (findOne j t), t'))
  /\ remove id0 t' = (inr tt, t').
Proof.
  intros H. rewrite supplier_remove_cases in H.
  destruct (outage t) as [e|] eqn:Hav; [discriminate H|].
  injection H as <-.
  split; [|split; [|split; [|split]]].
  - rewrite supplier_findOne_available by reflexivity. simpl.
    now rewrite (find_removed Suppliers.id (rows t) id0).
  - rewrite supplier_findByCode_available by reflexivity. simpl.
    rewrite (find_removed Suppliers.id (rows t) id0). eexists. reflexivity.
  - intros dto. rewrite supplier_update_cases. simpl.
    now rewrite (find_removed Suppliers.id (rows t) id0).
  - intros j Hj. rewrite !supplier_findOne_available by (assumption || reflexivity).
    simpl. now rewrite (find_other_removed Suppliers.id (rows t) id0 j) by congruence.
  - rewrite supplier_remove_cases. simpl.
    rewrite (filter_keeps_all _ (filter _ (rows t))); [reflexivity|].
    intros r Hr. apply filter_In in Hr. tauto.
Qed.
End SuppliersStore.

Lemma supplier_create_then_find_witness :
  Suppliers.findByCode string (fun _ => "2") 2
    (snd (Suppliers.create string string (fun d => d) "Beta" MoreSamples.one_supplier))
  = (inr (Suppliers.mkSupplier 2 "Beta"),
     snd (Suppliers.create string string (fun d => d) "Beta" MoreSamples.one_supplier)).
Proof.
  refine (proj1 (proj2 (proj2 (proj2
            (supplier_create_then_find string string (fun d => d) (fun _ => "2")
               "Beta" MoreSamples.one_supplier _ _ _ eq_refl))))).
  split; simpl.
  - constructor; [intros [] | constructor].
  - repeat constructor.
Defined.

Lemma supplier_update_effect_witness :
  Suppliers.findOne string 1
    (snd (Suppliers.update string string (fun d _ => d) 1 "ACME Ltda."
            MoreSamples.one_supplier))
  = (inr (Some (Suppliers.mkSupplier 1 "ACME Ltda.")),
     snd (Suppliers.update string string (fun d _ => d) 1 "ACME Ltda."
            MoreSamples.one_supplier)).
Proof.
  exact (proj1 (proj2 (proj2
           (supplier_update_effect string string (fun d _ => d) 1 "ACME Ltda."
              MoreSamples.one_supplier _ _ eq_refl)))).
Defined.

Lemma supplier_remove_effect_witness :
  Suppliers.findOne string 1 (snd (Suppliers.remove string 1 MoreSamples.one_supplier))
  = (inr None, snd (Suppliers.remove string 1 MoreSamples.one_supplier)).
Proof.
  exact (proj1 (supplier_remove_effect string string (fun d _ => d) (fun _ => "1")
                  1 MoreSamples.one_supplier _ eq_refl)).
Defined.

(** ** The document query, further *)

Section QueryFacts.
Import Documents.
Variable DocumentDTO : Type.
Variable toDocumentDTO : DocumentEntity -> DocumentDTO.

Lemma satisfies_query_selects (filters : DocumentFilter) (doc : DocumentEntity) :
  satisfies (query_of filters) doc = query_selects filters doc.
Proof.
  unfold query_of, query_selects.
  destruct (truthy_string (f_file_type filters)), (truthy_number (f_user_id filters)),
    (truthy_number (f_id filters)), (truthy_string (f_filename filters)),
    (truthy_string (f_upload_date filters));
    unfold andWhere, satisfies, createQueryBuilder, constraint;
    cbn [app forallb];
    unfold is_file_type, is_owned_by, has_id, uploaded_on, like_filename, eq_opt_id;
    rewrite ?andb_true_r, ?andb_assoc; reflexivity.
Qed.

Lemma constraint_relaxed {V} (truthy : option V -> option V) (loose strict : option V)
      (holds : V -> DocumentEntity -> bool) (doc : DocumentEntity) :
  off_or_same truthy loose strict ->
  constraint (truthy strict) holds doc = true ->
  constraint (truthy loose) holds doc = true.
Proof. intros [->| ->] H; [reflexivity | exact H]. Qed.

Lemma query_selects_relaxed (loose strict : DocumentFilter) (doc : DocumentEntity) :
  relaxes loose strict ->
  query_selects strict doc = true -> query_selects loose doc = true.
Proof.
  intros [H1 [H2 [H3 [H4 H5]]]] H. unfold query_selects in *.
  repeat (apply andb_prop in H; destruct H as [H ?]).
  repeat (apply andb_true_intro; split); eapply constraint_relaxed; eassumption.
Qed.

Lemma filter_filter_implied {A} (p q : A -> bool) (l : list A) :
  (forall x, p x = true -> q x = true) -> filter p (filter q l) = filter p l.
Proof.
  intros Himp. induction l as [|a l IH]; simpl; [reflexivity|].
  destruct (q a) eqn:Hq; simpl.
  - now rewrite IH.
  - destruct (p a) eqn:Hp; [|exact IH].
    rewrite (Himp a Hp) in Hq. discriminate Hq.
Qed.

(** X14: switching filters off only widens the result: on an available
    store, the documents returned for a query are those returned for any
    query that drops some of its filters, filtered once more by the full
    query; they come in the table's order and are documents of the table. *)
Theorem findWithFilters_narrows (loose strict : DocumentFilter) (t : DocumentsRepository) :
  outage t = None ->
  relaxes loose strict ->
  exists kept_strict kept_loose,
    findWithFilters DocumentDTO toDocumentDTO strict t
    = (inr (map toDocumentDTO kept_strict), t)
    /\ findWithFilters DocumentDTO toDocumentDTO loose t
       = (inr (map toDocumentDTO kept_loose), t)
    /\ kept_strict = filter (query_selects strict) kept_loose
    /\ incl kept_strict kept_loose
    /\ kept_loose = filter (query_selects loose) (rows t).
Proof.
  intros Hav Hrel.
  exists (filter (query_selects strict) (rows t)), (filter (query_selects loose) (rows t)).
  assert (Heq : filter (query_selects strict) (rows t)
                = filter (query_selects strict) (filter (query_selects loose) (rows t))).
  { symmetry. apply filter_filter_implied. intros doc. now apply query_selects_relaxed. }
  split; [|split; [|split; [|split]]].
  - rewrite findWithFilters_available by assumption. do 3 f_equal.
    apply filter_ext. intros doc. apply satisfies_query_selects.
  - rewrite findWithFilters_available by assumption. do 3 f_equal.
    apply filter_ext. intros doc. apply satisfies_query_selects.
  - exact Heq.
  - rewrite Heq. intros doc Hdoc. apply filter_In in Hdoc. tauto.
  - reflexivity.
Qed.

Lemma filter_by_unique_id (l : list DocumentEntity) (i : Z) :
  NoDup (map id l) ->
  filter (fun d => Z.eqb (id d) i) l
  = match find (fun d => Z.eqb (id d) i) l with
    | Some d => [d]
    | None => []
    end.
Proof.
  induction l as [|d l IH]; intros Hnd; [reflexivity|].
  inversion Hnd as [|x xs Hnotin Hnd']; subst. simpl.
  destruct (Z.eqb_spec (id d) i) as [Heq|Hne]; [|now apply IH].
  f_equal.
  assert (Hnone : forall r, In r l -> Z.eqb (id r) i = false).
  { intros r Hr. apply Z.eqb_neq. intros Hri. apply Hnotin.
    apply in_map_iff. exists r. split; [congruence | exact Hr]. }
  clear -Hnone. induction l as [|r l IH]; simpl; [reflexivity|].
  rewrite (Hnone r (or_introl eq_refl)). apply IH. intros x Hx. apply Hnone. now right.
Qed.
End QueryFacts.

Lemma findWithFilters_narrows_witness :
  exists kept_strict kept_loose,
    Documents.findWithFilters string Documents.filename
      (Documents.mkFilter (Some "application/pdf") None None (Some "rep") None)
      Samples.two_documents
    = (inr (map Documents.filename kept_strict), Samples.two_documents)
    /\ Documents.findWithFilters string Documents.filename
         (Documents.mkFilter (Some "application/pdf") None None None None)
         Samples.two_documents
       = (inr (map Documents.filename kept_loose), Samples.two_documents)
    /\ kept_strict
       = filter (query_selects
                   (Documents.mkFilter (Some "application/pdf") None None (Some "rep") None))
                kept_loose
    /\ incl kept_strict kept_loose
    /\ kept_loose
       = filter (query_selects
                   (Documents.mkFilter (Some "application/pdf") None None None None))
                (rows Samples.two_documents).
Proof.
  apply (findWithFilters_narrows string Documents.filename
           (Documents.mkFilter (Some "application/pdf") None None None None)
           (Documents.mkFilter (Some "application/pdf") None None (Some "rep") None)
           Samples.two_documents eq_refl).
  repeat split; (now left) || (now right).
Defined.

Section IdQueryFacts.
Import Documents.
Variable DocumentDTO : Type.
Variable toDocumentDTO : DocumentEntity -> DocumentDTO.

(** X15: with unique document ids the three lookups by id agree: on an
    available store and for an id other than 0, [getDocumentById] resolves to
    the document of that id or to [null]; [findById] returns its DTO or fails
    with NotFound; and the query filtered by that id returns its DTO alone or
    nothing. *)
Theorem lookups_by_id_agree (i : Z) (t : DocumentsRepository) :
  outage t = None ->
  NoDup (map id (rows t)) ->
  i <> 0%Z ->
  exists found,
    getDocumentById i t = (inr found, t)
    /\ (forall doc, found = Some doc -> In doc (rows t) /\ id doc = i)
    /\ (found = None -> absent id i t)
    /\ findById DocumentDTO toDocumentDTO i t
       = (match found with
          | Some doc => inr (toDocumentDTO doc)
          | None => inl (HttpException "Document not found" NOT_FOUND)
          end, t)
    /\ findWithFilters DocumentDTO toDocumentDTO (mkFilter None None (Some i) None None) t
       = (inr match found with
              | Some doc => [toDocumentDTO doc]
              | None => []
              end, t).
Proof.
  intros Hav Hnd Hi.
  exists (find (fun d => Z.eqb (id d) i) (rows t)).
  split; [|split; [|split; [|split]]].
  - unfold getDocumentById. now apply findOne_available.
  - intros doc Hfind. apply find_some in Hfind. destruct Hfind as [Hin Hid].
    split; [exact Hin | now apply Z.eqb_eq].
  - intros Hnone r Hr. apply Z.eqb_neq. exact (find_none _ _ Hnone r Hr).
  - unfold findById, bind. rewrite findOne_available by assumption.
    now destruct (find _ _).
  - rewrite findWithFilters_available by assumption.
    assert (Hquery : forall doc, satisfies (query_of (mkFilter None None (Some i) None None)) doc
                                 = Z.eqb (id doc) i).
    { intros doc. destruct i; [contradiction | |];
        unfold query_of, satisfies; simpl; apply andb_true_r. }
    rewrite (filter_ext _ _ Hquery), (filter_by_unique_id (rows t) i Hnd).
    now destruct (find _ _).
Qed.

Lemma matches_runs (n : nat) (s : list ascii) :
  SQL.matches (SQL.AnyRun :: repeat SQL.AnyRun n) s = true.
Proof.
  revert s. induction n as [|n IH]; intros s; [apply matches_only_run|].
  rewrite matches_run. simpl repeat. now rewrite IH.
Qed.

Lemma tokens_percents (l : list ascii) :
  (forall c, In c l -> c = "%"%char) ->
  SQL.tokens l = repeat SQL.AnyRun (List.length l).
Proof.
  induction l as [|c l IH]; intros Hall; [reflexivity|].
  rewrite (Hall c (or_introl eq_refl)). simpl. f_equal.
  apply IH. intros x Hx. apply Hall. now right.
Qed.

Lemma matches_one_char (s : list ascii) :
  SQL.matches [SQL.AnyRun; SQL.AnyChar; SQL.AnyRun] s
  = match s with [] => false | _ :: _ => true end.
Proof.
  destruct s as [|c s]; [reflexivity|].
  rewrite matches_run. cbn [SQL.matches]. now rewrite matches_only_run.
Qed.

(** X16: the pattern characters of [LIKE] are live in the filename filter:
    on an available store, a non-empty text made of [%] alone returns every
    document, and the text [_] returns exactly the documents whose filename
    is not empty. *)
Theorem filename_patterns (fname : string) (t : DocumentsRepository) :
  outage t = None ->
  fname <> EmptyString ->
  (forall c, In c (JS.chars fname) -> c = "%"%char) ->
  findWithFilters DocumentDTO toDocumentDTO (mkFilter None None None (Some fname) None) t
  = (inr (map toDocumentDTO (rows t)), t)
  /\ findWithFilters DocumentDTO toDocumentDTO (mkFilter None None None (Some "_") None) t
     = (inr (map toDocumentDTO
               (filter (fun doc => negb (String.eqb (filename doc) EmptyString)) (rows t))),
        t).
Proof.
  intros Hav Hne Hall. split.
  - rewrite findWithFilters_available by assumption. do 3 f_equal.
    apply filter_keeps_all. intros doc _.
    destruct fname as [|c0 rest]; [contradiction|].
    unfold query_of, satisfies. simpl truthy_string. cbn [app forallb andWhere createQueryBuilder
      f_file_type f_user_id f_id f_filename f_upload_date truthy_number].
    rewrite andb_true_r. unfold SQL.like.
    change (JS.chars ("%" ++ JS.toLowerCase (String c0 rest) ++ "%"))
      with ("%"%char :: JS.chars (JS.toLowerCase (String c0 rest) ++ "%")).
    rewrite tokens_percents.
    + apply matches_runs.
    + intros c [<-|Hc]; [reflexivity|].
      rewrite chars_app in Hc. apply in_app_or in Hc. destruct Hc as [Hc|[<-|[]]];
        [|reflexivity].
      unfold JS.toLowerCase in Hc. rewrite chars_str in Hc.
      apply in_map_iff in Hc. destruct Hc as [x [<- Hx]].
      now rewrite (Hall x Hx).
  - rewrite findWithFilters_available by assumption. do 3 f_equal.
    apply filter_ext. intros doc.
    unfold query_of, satisfies. simpl. rewrite andb_true_r.
    unfold SQL.like, SQL.LOWER, JS.toLowerCase. rewrite chars_str.
    change (SQL.tokens (JS.chars "%_%")) with [SQL.AnyRun; SQL.AnyChar; SQL.AnyRun].
    rewrite matches_one_char. now destruct (filename doc).
Qed.
End IdQueryFacts.

Lemma lookups_by_id_agree_witness :
  exists found,
    Documents.getDocumentById 2 Samples.two_documents = (inr found, Samples.two_documents)
    /\ (forall doc, found = Some doc ->
                    In doc (rows Samples.two_documents) /\ Documents.id doc = 2%Z)
    /\ (found = None -> absent Documents.id 2 Samples.two_documents)
    /\ Documents.findById string Documents.filename 2 Samples.two_documents
       = (match found with
          | Some doc => inr (Documents.filename doc)
          | None => inl (HttpException "Document not found" NOT_FOUND)
          end, Samples.two_documents)
    /\ Documents.findWithFilters string Documents.filename
         (Documents.mkFilter None None (Some 2%Z) None None) Samples.two_documents
       = (inr match found with
              | Some doc => [Documents.filename doc]
              | None => []
              end, Samples.two_documents).
Proof.
  apply (lookups_by_id_agree string Documents.filename 2 Samples.two_documents eq_refl).
  - simpl. repeat constructor; simpl; intuition discriminate.
  - discriminate.
Defined.

Lemma filename_patterns_witness :
  Documents.findWithFilters string Documents.filename
    (Documents.mkFilter None None None (Some "%%") None) Samples.two_documents
  = (inr ["Invoice_2024.pdf"; "report.pdf"], Samples.two_documents).
Proof.
  refine (proj1 (filename_patterns string Documents.filename "%%" Samples.two_documents
                   eq_refl _ _)).
  - discriminate.
  - intros c [<-|[<-|[]]]; reflexivity.
Defined.

(** ** Searching: [includes], [trim] and the filters of the front end *)

Section SearchFacts.





















Variable Id : Type.
Variable truthy_id : Id -> bool.
Variable Number_isNaN : string -> bool.


(** X19: [onProductOptionSelected] does not look at which option was
    selected: any two selected texts that are not empty and read as numbers
    leave the same form, and with a first product whose id is truthy that
    product is the one filled in, whatever was selected. *)
Theorem option_selected_ignores_selection
        (products : list (EntryPickers.Product Id)) (selected other : string)
        (form : EntryPickers.PickerForm Id) :
  selected <> EmptyString ->
  Number_isNaN selected = false ->
  other <> EmptyString ->
  Number_isNaN other = false ->
  EntryPickers.onProductOptionSelected Id truthy_id Number_isNaN products selected form
  = EntryPickers.onProductOptionSelected Id truthy_id Number_isNaN products other form
  /\ (forall first rest,
        products = first :: rest ->
        truthy_id (EntryPickers.id first) = true ->
        EntryPickers.onProductOptionSelected Id truthy_id Number_isNaN products selected form
        = EntryPickers.mkPicker (Some (EntryPickers.id first)) (EntryPickers.name first)).
Proof.
  intros Hs Hsn Ho Hon. unfold EntryPickers.onProductOptionSelected.
  destruct selected as [|c rest]; [contradiction|].
  destruct other as [|c' rest']; [contradiction|].
  rewrite Hsn, Hon. split; [reflexivity|].
  intros first others -> Hfirst. simpl. now rewrite Hfirst.
Qed.
End SearchFacts.



Lemma option_selected_ignores_selection_witness :
  EntryPickers.onProductOptionSelected Z MoreSamples.nonzero MoreSamples.not_digits
    MoreSamples.catalogue "2" (EntryPickers.mkPicker None EmptyString)
  = EntryPickers.mkPicker (Some 1%Z) "Caixa".
Proof.
  refine (proj2 (option_selected_ignores_selection Z MoreSamples.nonzero
                   MoreSamples.not_digits MoreSamples.catalogue "2" "1"
                   (EntryPickers.mkPicker None EmptyString) _ eq_refl _ eq_refl)
            _ _ eq_refl eq_refl); discriminate.
Defined.

(** ** The token of the front end *)

Section TokenStorage.
Import AuthClient.

Lemma getItem_removed (key : string) (s : Storage) : getItem key (removeItem key s) = None.
Proof.
  induction s as [|[k v] s IH]; simpl; [reflexivity|].
  destruct (String.eqb k key) eqn:Hk; simpl; [exact IH|]. now rewrite Hk.
Qed.

Lemma getItem_other_removed (key other : string) (s : Storage) :
  other <> key -> getItem other (removeItem key s) = getItem other s.
Proof.
  intros Hne. induction s as [|[k v] s IH]; simpl; [reflexivity|].
  destruct (String.eqb k key) eqn:Hk; simpl.
  - apply String.eqb_eq in Hk. subst k.
    rewrite (proj2 (String.eqb_neq key other)) by congruence. exact IH.
  - destruct (String.eqb k other); [reflexivity | exact IH].
Qed.

Lemma call_keeps_others (s : Storage) (c : Call) (key : string) :
  key <> "accessToken" -> getItem key (call s c) = getItem key s.
Proof.
  intros Hne. destruct c as [[err|token]|]; [reflexivity| |].
  - unfold call, login, setToken, setItem. cbn [getItem].
    rewrite (proj2 (String.eqb_neq "accessToken" key)) by congruence.
    now apply getItem_other_removed.
  - unfold call, logout. now apply getItem_other_removed.
Qed.

(** X20: the token of a session.  Whatever calls came before, after [logout]
    there is no token and [isLoggedIn] is false; after a login that the
    server answered, the token is the one received, and [isLoggedIn] is true
    unless that token is the empty string; a login that failed leaves
    everything as it was; and no call touches another item of the storage. *)
Theorem token_lifecycle (calls : list Call) (s : Storage) :
  let s' := fold_left call calls s in
  getToken (logout s') = None
  /\ isLoggedIn (logout s') = false
  /\ (forall token,
        getToken (login (inr token) s') = Some token
        /\ isLoggedIn (login (inr token) s') = negb (String.eqb token EmptyString))
  /\ (forall err, login (inl err) s' = s')
  /\ (forall key, key <> "accessToken" -> getItem key s' = getItem key s).
Proof.
  intros s'. split; [|split; [|split; [|split]]].
  - apply getItem_removed.
  - unfold isLoggedIn, getToken, logout. now rewrite getItem_removed.
  - intros token. split.
    + unfold getToken, login, setToken, setItem. cbn [getItem].
      now rewrite String.eqb_refl.
    + unfold isLoggedIn, getToken, login, setToken, setItem. cbn [getItem].
      rewrite String.eqb_refl. now destruct token.
  - reflexivity.
  - intros key Hne. unfold s'. clear s'. revert s.
    induction calls as [|c calls IH]; intros s; [reflexivity|].
    simpl. rewrite IH. now apply call_keeps_others.
Qed.
End TokenStorage.

Lemma token_lifecycle_witness :
  AuthClient.getItem "theme"
    (fold_left AuthClient.call
       [AuthClient.Login (inr "jwt:uid-1"); AuthClient.Logout;
        AuthClient.Login (inl (HttpException "Invalid credentials" UNAUTHORIZED))]
       MoreSamples.other_items)
  = Some "dark".
Proof.
  refine (proj2 (proj2 (proj2 (proj2
            (token_lifecycle
               [AuthClient.Login (inr "jwt:uid-1"); AuthClient.Logout;
                AuthClient.Login (inl (HttpException "Invalid credentials" UNAUTHORIZED))]
               MoreSamples.other_items)))) "theme" _).
  discriminate.
Defined.

(** ** The product-entry form: what is posted, and what a reset leaves *)

Section SubmitFacts.
Import ProductEntryComponent.
Local Open Scope float_scope.
Variable Number_toString : float -> string.






Lemma or_zero_cases (a : option float) :
  Number.or_zero (parseFloat_value a) = 0
  \/ exists x, a = Some x /\ Number.or_zero (parseFloat_value a) = x
               /\ PrimFloat.is_nan x = false.
Proof.
  destruct a as [x|]; [|left; reflexivity].
  unfold parseFloat_value, Number.parseFloat, Number.or_zero.
  destruct (PrimFloat.is_zero x) eqn:Hz; [left; reflexivity|].
  destruct (PrimFloat.is_nan x) eqn:Hn; simpl; [left; reflexivity|].
  rewrite Hz. right. exists x. now repeat split.
Qed.

Lemma or_zero_missing : Number.or_zero (parseFloat_value None) = 0.
Proof. reflexivity. Qed.

(** What the amount reads as is a zero or a finite number. *)
Lemma amount_is_finite (a : option float) :
  finite_amount a = true ->
  match Prim2SF (Number.or_zero (parseFloat_value a)) with
  | S754_zero _ | S754_finite _ _ _ => True
  | _ => False
  end.
Proof.
  intros Hfin. destruct (or_zero_cases a) as [->|[x [-> [-> Hnan]]]]; [exact I|].
  simpl in Hfin. apply negb_true_iff in Hfin.
  unfold PrimFloat.is_infinity in Hfin. unfold PrimFloat.is_nan in Hnan.
  rewrite FloatAxioms.eqb_spec, FloatAxioms.abs_spec in Hfin.
  rewrite FloatAxioms.eqb_spec in Hnan.
  change (Prim2SF infinity) with (S754_infinity false) in Hfin.
  destruct (Prim2SF x) as [s|s| |s m e]; try exact I.
  - discriminate Hfin.
  - discriminate Hnan.
Qed.

Lemma zero_total (x y : float) :
  (Prim2SF x = S754_zero false \/ Prim2SF y = S754_zero false) ->
  match Prim2SF x with S754_zero _ | S754_finite _ _ _ => True | _ => False end ->
  match Prim2SF y with S754_zero _ | S754_finite _ _ _ => True | _ => False end ->
  Number.toFixed2 Number_toString (x * y) = "0.00".
Proof.
  intros Hzero Hx Hy. unfold Number.toFixed2.
  rewrite FloatAxioms.mul_spec. unfold SF64mul, SFmul.
  destruct (Prim2SF x) as [sx|sx| |sx mx ex], (Prim2SF y) as [sy|sy| |sy my ey];
    try contradiction; try reflexivity.
  destruct Hzero as [H|H]; discriminate H.
Qed.

(** X23: while one of the two amounts is missing, the total on display is
    0.00: every change of the quantity or of the unit value that leaves one
    of them empty, the other not being an infinity, sets the total to
    ["0.00"]. *)
Theorem missing_amount_shows_zero (c : Component) (a : option float) :
  finite_amount a = true ->
  (finite_amount (unitValue (entryForm c)) = true ->
   a = None \/ unitValue (entryForm c) = None ->
   totalValue (entryForm (quantity_changed Number_toString a c)) = Some "0.00")
  /\ (finite_amount (quantity (entryForm c)) = true ->
      a = None \/ quantity (entryForm c) = None ->
      totalValue (entryForm (unitValue_changed Number_toString a c)) = Some "0.00").
Proof.
  intros Ha.
  assert (Hzero : forall b, b = None ->
                    Prim2SF (Number.or_zero (parseFloat_value b)) = S754_zero false).
  { intros b ->. reflexivity. }
  split; intros Hother Hmissing; simpl; f_equal; apply zero_total.
  - destruct Hmissing as [H|H]; [left | right]; now apply Hzero.
  - now apply amount_is_finite.
  - now apply amount_is_finite.
  - destruct Hmissing as [H|H]; [right | left]; now apply Hzero.
  - now apply amount_is_finite.
  - now apply amount_is_finite.
Qed.
End SubmitFacts.



Lemma missing_amount_shows_zero_witness :
  ProductEntryComponent.totalValue
    (ProductEntryComponent.entryForm
       (ProductEntryComponent.run Samples.show_sample
          [ProductEntryComponent.QuantityInput (Some 2%float)]))
  = Some "0.00".
Proof.
  exact (proj1 (missing_amount_shows_zero Samples.show_sample
                  (ProductEntryComponent.run Samples.show_sample [])
                  (Some 2%float) eq_refl)
           eq_refl (or_intror eq_refl)).
Defined.

(** ** The entry identifier, its length *)



(** ** Looking a product up by the id typed *)

Section LookupFacts.
Import IdLookup.
Local Open Scope float_scope.
Variable http_get : float -> Result (option (EntryPickers.Product float)).

(** X25: leaving the id field.  An id that is missing, not a number or not
    positive is refused without asking the server; any other id is asked
    once.  A product the server knows gives its name to the form; a product
    it does not know, and likewise a request that fails, empties the two
    controls with the alert 'Produto não encontrado...': the service turns
    every error of the request into [null], so the alert 'Erro ao buscar
    produto' is never shown. *)
Theorem id_blur_outcomes (before : EntryPickers.PickerForm float) :
  let after := onProductIdBlur http_get before in
  ~ In "Erro ao buscar produto. Tente novamente." (alerts after)
  /\ (requested after = []
      \/ exists asked, EntryPickers.productId before = Some asked
                       /\ requested after = [asked]
                       /\ (0 <? asked) = true)
  /\ (requested after = [] ->
      after = mkOutcome (EntryPickers.mkPicker None EmptyString)
                        ["ID do produto inválido"] [])
  /\ (forall asked product,
        requested after = [asked] -> http_get asked = inr (Some product) ->
        form after = EntryPickers.mkPicker (Some asked) (EntryPickers.name product)
        /\ alerts after = [])
  /\ (forall asked,
        requested after = [asked] ->
        (http_get asked = inr None \/ exists err, http_get asked = inl err) ->
        form after = EntryPickers.mkPicker None EmptyString
        /\ alerts after = ["Produto não encontrado. Cadastre antes de dar entrada."]).
Proof.
  intros after. unfold after, onProductIdBlur, getProductById.
  destruct (EntryPickers.productId before) as [x|] eqn:Hid.
  2:{ simpl. repeat split; try (intros; discriminate).
      - intros [H|[]]. discriminate H.
      - now left. }
  destruct (PrimFloat.is_nan x) eqn:Hnan; simpl.
  { repeat split; try (intros; discriminate).
    - intros [H|[]]. discriminate H.
    - now left. }
  destruct (x <=? 0) eqn:Hle; simpl.
  { repeat split; try (intros; discriminate).
    - intros [H|[]]. discriminate H.
    - now left. }
  assert (Hpos : (0 <? x) = true).
  { rewrite FloatAxioms.leb_spec in Hle. rewrite FloatAxioms.ltb_spec.
    unfold PrimFloat.is_nan in Hnan. rewrite FloatAxioms.eqb_spec in Hnan.
    change (Prim2SF 0) with (S754_zero false) in *.
    unfold SFleb, SFltb, SFeqb in *.
    destruct (Prim2SF x) as [s|s| |s m e]; simpl in *;
      try discriminate; try reflexivity; destruct s; try discriminate; reflexivity. }
  destruct (http_get x) as [err|[product|]] eqn:Hget; simpl.
  - split; [intros [H|[]]; discriminate H|].
    split; [right; exists x; now repeat split|].
    split; [intros H; discriminate H|].
    split.
    + intros asked product H Hp. injection H as <-. rewrite Hget in Hp. discriminate Hp.
    + intros asked H _. now split.
  - split; [intros []|].
    split; [right; exists x; now repeat split|].
    split; [intros H; discriminate H|].
    split.
    + intros asked product' H Hp. injection H as <-. rewrite Hget in Hp.
      injection Hp as <-. now split.
    + intros asked H [Hp|[err Hp]]; injection H as <-; rewrite Hget in Hp;
        discriminate Hp.
  - split; [intros [H|[]]; discriminate H|].
    split; [right; exists x; now repeat split|].
    split; [intros H; discriminate H|].
    split.
    + intros asked product H Hp. injection H as <-. rewrite Hget in Hp. discriminate Hp.
    + intros asked H _. now split.
Qed.
End LookupFacts.

Lemma id_blur_outcomes_witness :
  IdLookup.alerts
    (IdLookup.onProductIdBlur MoreSamples.products_endpoint
       (EntryPickers.mkPicker (Some 7%float) "Caixa"))
  = ["Produto não encontrado. Cadastre antes de dar entrada."].
Proof.
  refine (proj2 (proj2 (proj2 (proj2 (proj2
            (id_blur_outcomes MoreSamples.products_endpoint
               (EntryPickers.mkPicker (Some 7%float) "Caixa")))))
            7%float eq_refl _)).
  right. eexists. reflexivity.
Defined.
